(** * Verification of the data-collection acquisition engine

    Shallow embedding of [src/data_collection/src]: the token-bucket
    [RateLimiter] ([utils/rate_limiter.py]), the two-tier [CacheManager]
    ([utils/cache_manager.py]) and the [DataCollector] orchestrator
    ([services/data_collector.py]).

    Conventions of the embedding:
    - Python's [time.time()] readings are rationals ([Q]); the limiter reads
      the clock through a stream [clock : nat -> Q] indexed by a tick that
      every [time.time()] call advances, so each reading of the source is a
      distinct clock value.
    - Python values handled by the cache and the collector are the JSON-like
      [pyval]; exceptions are the [exc] variants of [core/exceptions.py] plus
      the builtin ones the code can meet.
    - Strings are Stdlib [string]; dicts keyed by strings are stdpp [gmap]s
      where order does not matter and association lists where it does. *)

From Stdlib Require Import QArith Qround Qminmax Lqa ZArith Lia String Ascii List.
From stdpp Require Import base gmap strings.

Import ListNotations.

Local Notation "a +s+ b" := (String.append a b) (at level 60, right associativity).

(** ** Python values and exceptions *)

#[local] Set Warnings "-register-all".
Inductive pyval : Type :=
| PNone
| PBool (b : bool)
| PInt (z : Z)
| PFloat (q : Q)
| PStr (s : string)
| PList (l : list pyval)
| PDict (kvs : list (string * pyval)).

(** Python truthiness ([bool(x)]). *)
Definition truthy (v : pyval) : bool :=
  match v with
  | PNone => false
  | PBool b => b
  | PInt z => negb (Z.eqb z 0)
  | PFloat q => negb (Qeq_bool q 0)
  | PStr s => negb (String.eqb s "")
  | PList l => negb (List.length l =? 0)%nat
  | PDict kvs => negb (List.length kvs =? 0)%nat
  end.

Definition is_none (v : pyval) : bool :=
  match v with PNone => true | _ => false end.

Inductive exc : Type :=
| DataCollectionError (msg : string)
| CacheError (msg : string) (cache_operation : string)
| RateLimitError (msg : string) (retry_after : Z)
| TypeError (msg : string)
| KeyError (msg : string)
| AttributeError (msg : string)
| ValueError (msg : string)
| OSError (msg : string)
| JSONDecodeError (msg : string)
| NetworkError (msg : string) (retry_count : Z)
| ClientError (msg : string)   (* aiohttp.ClientError *)
| OtherError (name msg : string).

(** [str(e)]: every exception class of the repository passes its message to
    [Exception.__init__], so [str] is the message. *)
Definition exc_str (e : exc) : string :=
  match e with
  | DataCollectionError m | CacheError m _ | RateLimitError m _
  | TypeError m | KeyError m | AttributeError m | ValueError m
  | OSError m | JSONDecodeError m | NetworkError m _ | ClientError m
  | OtherError _ m => m
  end.

(** Strict comparison of rationals as a boolean. *)
Definition Qlt_bool (a b : Q) : bool := negb (Qle_bool b a).

(** Python's [max(a, b)]: [b] only when it is strictly larger. *)
Definition py_max (a b : Q) : Q := if Qlt_bool a b then b else a.

(** Python's [int(x)] on a float truncates toward zero. *)
Definition py_int (q : Q) : Z :=
  if Qle_bool 0 q then Qfloor q else (- Qfloor (- q))%Z.

(** ** RateLimiter ([utils/rate_limiter.py]) *)
Module RateLimiter.
Local Open Scope Q_scope.

(** [self.day_bucket] is an int, or [float('inf')] without a daily cap. *)
Inductive bucket := Fin (n : Z) | Inf.

Definition bucket_le_0 (b : bucket) : bool :=
  match b with Fin n => (n <=? 0)%Z | Inf => false end.

Record limiter := mkLimiter {
  calls_per_minute : Z;
  calls_per_day : option Z;
  burst_size : Z;
  minute_bucket : Z;
  day_bucket : bucket;
  last_minute_refill : Q;
  last_day_refill : Q;
  minute_calls : list Q;   (* deque, oldest first *)
  day_calls : list Q
}.

(** [if self.calls_per_day:] *)
Definition day_cap (l : limiter) : option Z :=
  match calls_per_day l with
  | Some n => if (n =? 0)%Z then None else Some n
  | None => None
  end.

Record world := mkWorld { lim : limiter; tick : nat }.

Section Clock.
Variable clock : nat -> Q.

(** State-and-error monad of a limiter method: exceptions keep the state
    mutated so far, as Python attribute updates do. *)
Definition LM (A : Type) := world -> (exc + A) * world.

Definition ret {A} (a : A) : LM A := fun w => (inr a, w).
Definition bind {A B} (m : LM A) (k : A -> LM B) : LM B :=
  fun w => match m w with
           | (inl e, w') => (inl e, w')
           | (inr a, w') => k a w'
           end.
Definition raise {A} (e : exc) : LM A := fun w => (inl e, w).
Definition get_lim : LM limiter := fun w => (inr (lim w), w).
Definition put_lim (l : limiter) : LM unit :=
  fun w => (inr tt, mkWorld l (tick w)).

Local Notation "x <- m ;; k" := (bind m (fun x => k))
  (at level 100, m at next level, right associativity).
Local Notation "m ;;; k" := (bind m (fun _ => k))
  (at level 100, right associativity).

(** [time.time()]: the next clock reading. *)
Definition time_time : LM Q :=
  fun w => (inr (clock (tick w)), mkWorld (lim w) (S (tick w))).

Definition set_minute (l : limiter) (b : Z) (t : Q) : limiter :=
  mkLimiter (calls_per_minute l) (calls_per_day l) (burst_size l) b
    (day_bucket l) t (last_day_refill l) (minute_calls l) (day_calls l).
Definition set_day (l : limiter) (b : bucket) (t : Q) : limiter :=
  mkLimiter (calls_per_minute l) (calls_per_day l) (burst_size l)
    (minute_bucket l) b (last_minute_refill l) t (minute_calls l) (day_calls l).
Definition set_calls (l : limiter) (mc dc : list Q) : limiter :=
  mkLimiter (calls_per_minute l) (calls_per_day l) (burst_size l)
    (minute_bucket l) (day_bucket l) (last_minute_refill l)
    (last_day_refill l) mc dc.

(** [__init__]: two [time.time()] readings. *)
Definition init (calls_per_minute : Z) (calls_per_day : option Z)
    (burst : option Z) (t : nat) : world :=
  let burst_size :=
    match burst with
    | Some b => if (b =? 0)%Z then calls_per_minute else b
    | None => calls_per_minute
    end in
  let day_bucket :=
    match calls_per_day with
    | Some n => if (n =? 0)%Z then Inf else Fin n
    | None => Inf
    end in
  mkWorld (mkLimiter calls_per_minute calls_per_day burst_size burst_size
             day_bucket (clock t) (clock (S t)) [] [])
          (S (S t)).

(** [while dq and dq[0] < horizon: dq.popleft()] *)
Fixpoint drop_older (horizon : Q) (dq : list Q) : list Q :=
  match dq with
  | [] => []
  | t :: rest => if Qlt_bool t horizon then drop_older horizon rest else dq
  end.

Definition _cleanup_calls : LM unit :=
  current_time <- time_time ;;
  l <- get_lim ;;
  let mc := drop_older (current_time - 60) (minute_calls l) in
  let dc := match day_cap l with
            | Some _ => drop_older (current_time - (24 * 3600)) (day_calls l)
            | None => day_calls l
            end in
  put_lim (set_calls l mc dc).

Definition _refill : LM unit :=
  current_time <- time_time ;;
  l <- get_lim ;;
  let elapsed_minutes := (current_time - last_minute_refill l) / 60 in
  let new_tokens := py_int (elapsed_minutes * inject_Z (calls_per_minute l)) in
  let l := if (0 <? new_tokens)%Z
           then set_minute l (Z.min (burst_size l) (minute_bucket l + new_tokens))
                  current_time
           else l in
  let l := match day_cap l with
           | Some cpd =>
               let elapsed_days := (current_time - last_day_refill l) / (24 * 3600) in
               if Qle_bool 1 elapsed_days then set_day l (Fin cpd) current_time else l
           | None => l
           end in
  put_lim l ;;;
  _cleanup_calls.

Definition _get_minute_wait_time : LM Q :=
  l <- get_lim ;;
  match minute_calls l with
  | [] => ret 0
  | oldest :: _ =>
      now <- time_time ;;
      ret (py_max 0 (60 - (now - oldest)))
  end.

Definition _get_day_wait_time : LM Q :=
  l <- get_lim ;;
  match day_cap l, day_calls l with
  | Some _, oldest :: _ =>
      now <- time_time ;;
      ret (py_max 0 ((24 * 3600) - (now - oldest)))
  | _, _ => ret 0
  end.

Definition acquire : LM unit :=
  _refill ;;;
  l <- get_lim ;;
  if (minute_bucket l <=? 0)%Z then
    wait_time <- _get_minute_wait_time ;;
    raise (RateLimitError "Rate limit exceeded" (py_int wait_time))
  else if bucket_le_0 (day_bucket l) then
    wait_time <- _get_day_wait_time ;;
    raise (RateLimitError "Daily rate limit exceeded" (py_int wait_time))
  else
    let l := set_minute l (minute_bucket l - 1) (last_minute_refill l) in
    let l := match day_cap l, day_bucket l with
             | Some _, Fin n => set_day l (Fin (n - 1)) (last_day_refill l)
             | _, _ => l
             end in
    put_lim l ;;;
    current_time <- time_time ;;
    l <- get_lim ;;
    let mc := minute_calls l ++ [current_time] in
    let dc := match day_cap l with
              | Some _ => day_calls l ++ [current_time]
              | None => day_calls l
              end in
    put_lim (set_calls l mc dc).

(** [n] consecutive [await limiter.acquire()] calls, each outcome kept. *)
Fixpoint acquire_n (n : nat) (w : world) : list (exc + unit) * world :=
  match n with
  | O => ([], w)
  | S k =>
      let (r, w1) := acquire w in
      let (rs, w2) := acquire_n k w1 in
      (r :: rs, w2)
  end.

(** The attributes [utils.rate_limiter.RateLimiter] defines: the fields set
    in [__init__] and the methods of the class body. *)
Definition attributes : list string :=
  ["calls_per_minute"; "calls_per_day"; "burst_size"; "minute_bucket";
   "day_bucket"; "last_minute_refill"; "last_day_refill"; "minute_calls";
   "day_calls"; "_lock"; "__init__"; "acquire"; "_refill"; "_cleanup_calls";
   "_get_minute_wait_time"; "_get_day_wait_time"; "get_remaining_calls";
   "wait_if_needed"].

(** [await limiter.<name>()]: attribute lookup happens first and raises
    [AttributeError] when the class does not define [name]; otherwise the
    method body [m] runs. *)
Definition call_method (name : string) (m : LM unit) : LM unit :=
  if existsb (String.eqb name) attributes then m
  else raise (AttributeError
    ("'RateLimiter' object has no attribute '" +s+ name +s+ "'")).

(** [await self.rate_limiter.release()] as the providers write it; a no-op
    body stands for the method the abstract base class declares. *)
Definition release : LM unit := call_method "release" (ret tt).

(** [try: body finally: fin]: an exception of [fin] replaces the body's
    outcome. *)
Definition try_finally {A} (body : LM A) (fin : LM unit) : LM A :=
  fun w => let (r, w1) := body w in
           match fin w1 with
           | (inl e, w2) => (inl e, w2)
           | (inr _, w2) => (r, w2)
           end.

End Clock.
End RateLimiter.

(** ** AlphaVantageClient.fetch_data ([providers/alpha_vantage/client.py])

    Only the limiter's part of the method is modelled: [request] is the
    outcome of the HTTP exchange and response handling (lines 47-69). *)
Module AlphaVantageClient.
Import RateLimiter.
Section Clock.
Variable clock : nat -> Q.

Definition fetch_data (request : exc + pyval) : LM pyval :=
  try_finally
    (fun w =>
       let (r, w1) := match acquire clock w with
                      | (inl e, w1) => (inl e, w1)
                      | (inr _, w1) => (request, w1)
                      end in
       match r with
       | inl (ClientError m) =>
           (inl (NetworkError ("Network error during API call: " +s+ m) 0), w1)
       | _ => (r, w1)
       end)
    release.

End Clock.
End AlphaVantageClient.

(** ** CacheManager ([utils/cache_manager.py])

    The memory tier is a cachetools [TTLCache]: each key maps to its value
    and its expiry time (insertion time + [memory_ttl]); a key is present
    while the current time is below its expiry. The [maxsize] eviction of
    [TTLCache] is not modelled (the claims store one key). The disk tier maps
    each key to the content of the file [<dir>/<key>.cache]: a JSON document
    as [json.loads] decodes it, a file [json.loads] rejects, or a file whose
    [read_text] fails. [json.loads (json.dumps d)] is taken to be [d] on the
    JSON values written. Each operation receives the current time [now]
    ([time.time()] and the TTLCache timer are read as the same value). *)
Module CacheManager.

Record stats := mkStats {
  memory_hits : Z; memory_misses : Z; disk_hits : Z; disk_misses : Z }.

Inductive disk_file :=
| FileJSON (d : pyval)
| FileUndecodable
| FileUnreadable.

Record cache := mkCache {
  memory_cache : gmap string (pyval * Q);
  memory_ttl : Q;
  disk_cache_dir : bool;            (* [self.disk_cache_dir] is a Path *)
  disk : gmap string disk_file;
  cstats : stats }.

Definition set_memory (c : cache) (m : gmap string (pyval * Q)) : cache :=
  mkCache m (memory_ttl c) (disk_cache_dir c) (disk c) (cstats c).
Definition set_disk (c : cache) (d : gmap string disk_file) : cache :=
  mkCache (memory_cache c) (memory_ttl c) (disk_cache_dir c) d (cstats c).
Definition set_stats (c : cache) (s : stats) : cache :=
  mkCache (memory_cache c) (memory_ttl c) (disk_cache_dir c) (disk c) s.

Definition bump_memory_hits (c : cache) : cache :=
  let s := cstats c in
  set_stats c (mkStats (memory_hits s + 1) (memory_misses s) (disk_hits s) (disk_misses s)).
Definition bump_memory_misses (c : cache) : cache :=
  let s := cstats c in
  set_stats c (mkStats (memory_hits s) (memory_misses s + 1) (disk_hits s) (disk_misses s)).
Definition bump_disk_hits (c : cache) : cache :=
  let s := cstats c in
  set_stats c (mkStats (memory_hits s) (memory_misses s) (disk_hits s + 1) (disk_misses s)).
Definition bump_disk_misses (c : cache) : cache :=
  let s := cstats c in
  set_stats c (mkStats (memory_hits s) (memory_misses s) (disk_hits s) (disk_misses s + 1)).

(** [CacheManager(memory_cache_size=1000, memory_ttl=300, disk_cache_dir="cache")]
    on an empty cache directory. *)
Definition default_cache : cache :=
  mkCache ∅ 300 true ∅ (mkStats 0 0 0 0).

(** [self.memory_cache.get(key)] *)
Definition memory_get (c : cache) (key : string) (now : Q) : pyval :=
  match memory_cache c !! key with
  | Some (v, expires) => if Qlt_bool now expires then v else PNone
  | None => PNone
  end.

(** [self.memory_cache[key] = value] *)
Definition memory_set (c : cache) (key : string) (v : pyval) (now : Q) : cache :=
  set_memory c (<[key := (v, now + memory_ttl c)%Q]> (memory_cache c)).

(** [cache.memory_cache.clear()]: empties the memory tier alone. *)
Definition clear_memory (c : cache) : cache := set_memory c ∅.

(** State-and-error monad of the cache methods. *)
Definition CM (A : Type) := cache -> (exc + A) * cache.
Definition cret {A} (a : A) : CM A := fun c => (inr a, c).
Definition cbind {A B} (m : CM A) (k : A -> CM B) : CM B :=
  fun c => match m c with
           | (inl e, c') => (inl e, c')
           | (inr a, c') => k a c'
           end.
Definition craise {A} (e : exc) : CM A := fun c => (inl e, c).
Definition lift {A} (r : exc + A) : CM A := fun c => (r, c).
Definition modify (f : cache -> cache) : CM unit := fun c => (inr tt, f c).
Definition read {A} (f : cache -> A) : CM A := fun c => (inr (f c), c).
(** [try: m except Exception as e: h(e)] *)
Definition ccatch {A} (m : CM A) (h : exc -> CM A) : CM A :=
  fun c => match m c with
           | (inl e, c') => h e c'
           | r => r
           end.

Local Notation "x <- m ;; k" := (cbind m (fun x => k))
  (at level 100, m at next level, right associativity).
Local Notation "m ;;; k" := (cbind m (fun _ => k))
  (at level 100, right associativity).

(** [d.get(k)] on a decoded JSON document. *)
Definition dict_get (d : pyval) (k : string) : exc + pyval :=
  match d with
  | PDict kvs => inr (match List.find (fun kv => String.eqb (fst kv) k) kvs with
                      | Some (_, v) => v
                      | None => PNone
                      end)
  | _ => inl (AttributeError ("object has no attribute 'get'"))
  end.

(** [d[k]] on a decoded JSON document. *)
Definition dict_item (d : pyval) (k : string) : exc + pyval :=
  match d with
  | PDict kvs => match List.find (fun kv => String.eqb (fst kv) k) kvs with
                 | Some (_, v) => inr v
                 | None => inl (KeyError k)
                 end
  | PList _ => inl (TypeError "list indices must be integers or slices, not str")
  | PStr _ => inl (TypeError "string indices must be integers")
  | _ => inl (TypeError "object is not subscriptable")
  end.

Definition as_number (v : pyval) : option Q :=
  match v with
  | PBool b => Some (if b then 1 else 0)%Q
  | PInt z => Some (inject_Z z)
  | PFloat q => Some q
  | _ => None
  end.

(** [a - b] *)
Definition py_sub (a b : pyval) : exc + pyval :=
  match as_number a, as_number b with
  | Some x, Some y => inr (PFloat (x - y)%Q)
  | _, _ => inl (TypeError "unsupported operand type(s) for -")
  end.

(** [a > b] *)
Definition py_gt (a b : pyval) : exc + bool :=
  match as_number a, as_number b with
  | Some x, Some y => inr (Qlt_bool y x)
  | _, _ => inl (TypeError "'>' not supported between instances")
  end.

Section Strftime.
(** [datetime.fromtimestamp(t).strftime("%Y-%m-%d %H:%M:%S")] *)
Variable strftime : Q -> string.

Definition _write_to_disk (key : string) (value ttl : pyval) (now : Q) : CM unit :=
  dir <- read disk_cache_dir ;;
  if negb dir then cret tt else
  let cache_data := PDict [("value", value); ("timestamp", PStr (strftime now));
                           ("ttl", ttl)] in
  modify (fun c => set_disk c (<[key := FileJSON cache_data]> (disk c))).

Definition _delete_from_disk (key : string) : CM unit :=
  dir <- read disk_cache_dir ;;
  if negb dir then cret tt else
  modify (fun c => set_disk c (delete key (disk c))).

(** The [try] body of [_read_from_disk]. *)
Definition read_from_disk_body (key : string) (now : Q) : CM pyval :=
  f <- read (fun c => disk c !! key) ;;
  match f with
  | None => cret PNone
  | Some FileUnreadable => craise (OSError "read_text failed")
  | Some FileUndecodable => craise (JSONDecodeError "Expecting value")
  | Some (FileJSON cache_data) =>
      ttl <- lift (dict_get cache_data "ttl") ;;
      if truthy ttl then
        ts <- lift (dict_item cache_data "timestamp") ;;
        age <- lift (py_sub (PFloat now) ts) ;;
        expired <- lift (py_gt age ttl) ;;
        if expired then _delete_from_disk key ;;; cret PNone
        else lift (dict_item cache_data "value")
      else lift (dict_item cache_data "value")
  end.

Definition _read_from_disk (key : string) (now : Q) : CM pyval :=
  dir <- read disk_cache_dir ;;
  if negb dir then cret PNone else
  ccatch (read_from_disk_body key now) (fun _ => cret PNone).

Definition get (key : string) (now : Q) : CM pyval :=
  ccatch
    (value <- read (fun c => memory_get c key now) ;;
     if negb (is_none value) then modify bump_memory_hits ;;; cret value else
     modify bump_memory_misses ;;;
     dir <- read disk_cache_dir ;;
     if dir then
       disk_value <- _read_from_disk key now ;;
       if negb (is_none disk_value) then
         modify bump_disk_hits ;;;
         modify (fun c => memory_set c key disk_value now) ;;;
         cret disk_value
       else modify bump_disk_misses ;;; cret PNone
     else cret PNone)
    (fun e => craise (CacheError ("Cache retrieval error: " +s+ exc_str e) "get")).

Definition set (key : string) (value ttl : pyval) (now : Q) : CM unit :=
  ccatch
    (modify (fun c => memory_set c key value now) ;;;
     dir <- read disk_cache_dir ;;
     if dir then _write_to_disk key value ttl now else cret tt)
    (fun e => craise (CacheError ("Cache set error: " +s+ exc_str e) "set")).

End Strftime.
End CacheManager.

(** ** DataCollector ([services/data_collector.py])

    Providers are the external collaborators of the spec (section 6): each is
    given by the outcomes of its [fetch_data], [validate_response] and
    [transform_data]; the rate limiting of a provider happens inside its
    [fetch_data]. Every call the collector makes on a provider is recorded
    in [trace]; every error passed to [error_handler.handle_error] (which
    catches all its own exceptions and returns) is recorded in [error_log].
    Dates enter the code only through [str(start_date)] and
    [str(end_date)], so they are modelled by those strings. A real-time
    collection task is modelled by its handle (a number); the body of
    [collection_loop] is not needed by the registry operations. *)
Module DataCollector.

Record provider := mkProvider {
  fetch_data : string -> string -> string -> exc + pyval;
  validate_response : pyval -> bool;
  transform_data : pyval -> exc + pyval }.

Inductive event :=
| EvFetch (symbol start_date end_date : string)
| EvValidate
| EvTransform.

Record collector := mkCollector {
  providers : gmap string provider;
  cache_manager : CacheManager.cache;
  trace : list event;
  error_log : list exc;
  collection_tasks : gmap string nat;
  cancelled : list nat;
  next_task : nat }.

Definition set_cache (st : collector) (c : CacheManager.cache) : collector :=
  mkCollector (providers st) c (trace st) (error_log st) (collection_tasks st)
    (cancelled st) (next_task st).
Definition log_event (st : collector) (ev : event) : collector :=
  mkCollector (providers st) (cache_manager st) (trace st ++ [ev]) (error_log st)
    (collection_tasks st) (cancelled st) (next_task st).
Definition log_error (st : collector) (e : exc) : collector :=
  mkCollector (providers st) (cache_manager st) (trace st) (error_log st ++ [e])
    (collection_tasks st) (cancelled st) (next_task st).
Definition set_tasks (st : collector) (tasks : gmap string nat) (canc : list nat)
    (next : nat) : collector :=
  mkCollector (providers st) (cache_manager st) (trace st) (error_log st)
    tasks canc next.

Definition DM (A : Type) := collector -> (exc + A) * collector.
Definition dret {A} (a : A) : DM A := fun st => (inr a, st).
Definition dbind {A B} (m : DM A) (k : A -> DM B) : DM B :=
  fun st => match m st with
            | (inl e, st') => (inl e, st')
            | (inr a, st') => k a st'
            end.
Definition draise {A} (e : exc) : DM A := fun st => (inl e, st).
Definition dlift {A} (r : exc + A) : DM A := fun st => (r, st).
Definition dmodify (f : collector -> collector) : DM unit := fun st => (inr tt, f st).
Definition dread {A} (f : collector -> A) : DM A := fun st => (inr (f st), st).
(** Run a cache-manager method on [self.cache_manager]. *)
Definition with_cache {A} (m : CacheManager.CM A) : DM A :=
  fun st => let (r, c) := m (cache_manager st) in (r, set_cache st c).
(** [try: m except Exception as e: await handle_error(e, ctx); raise] *)
Definition handle_and_reraise {A} (m : DM A) : DM A :=
  fun st => match m st with
            | (inl e, st') => (inl e, log_error st' e)
            | r => r
            end.

Local Notation "x <- m ;; k" := (dbind m (fun x => k))
  (at level 100, m at next level, right associativity).
Local Notation "m ;;; k" := (dbind m (fun _ => k))
  (at level 100, right associativity).

(** [f"{provider_name}_{symbol}_{start_date}_{end_date}"] *)
Definition cache_key (provider_name symbol start_date end_date : string) : string :=
  provider_name +s+ "_" +s+ symbol +s+ "_" +s+ start_date +s+ "_" +s+ end_date.

(** [f"{provider_name}_{symbol}"] *)
Definition task_key (provider_name symbol : string) : string :=
  provider_name +s+ "_" +s+ symbol.

Section Strftime.
Variable strftime : Q -> string.

(** Lines 46-65 of [collect_data]: provider lookup, fetch, validation,
    transformation and caching of the result. *)
Definition fetch_pipeline (symbol provider_name start_date end_date : string)
    (use_cache : bool) (now : Q) : DM pyval :=
  prov <- dread (fun st => providers st !! provider_name) ;;
  match prov with
  | None => draise (DataCollectionError ("Unknown provider: " +s+ provider_name))
  | Some provider =>
      dmodify (fun st => log_event st (EvFetch symbol start_date end_date)) ;;;
      data <- dlift (fetch_data provider symbol start_date end_date) ;;
      dmodify (fun st => log_event st EvValidate) ;;;
      if negb (validate_response provider data)
      then draise (DataCollectionError "Invalid response from provider") else
      dmodify (fun st => log_event st EvTransform) ;;;
      transformed_data <- dlift (transform_data provider data) ;;
      (if use_cache
       then with_cache (CacheManager.set strftime
              (cache_key provider_name symbol start_date end_date)
              transformed_data PNone now)
       else dret tt) ;;;
      dret transformed_data
  end.

Definition collect_data (symbol provider_name start_date end_date : string)
    (use_cache : bool) (now : Q) : DM pyval :=
  handle_and_reraise
    (let key := cache_key provider_name symbol start_date end_date in
     cached <- (if use_cache then with_cache (CacheManager.get key now)
                else dret PNone) ;;
     if use_cache && truthy cached then dret cached
     else fetch_pipeline symbol provider_name start_date end_date use_cache now).

End Strftime.

(** [processed_results[symbol] = entry]: a Python dict keeps the position of
    the first insertion of a key and the value of the last. *)
Fixpoint dict_set (k : string) (v : pyval) (d : list (string * pyval))
    : list (string * pyval) :=
  match d with
  | [] => [(k, v)]
  | (k', v') :: rest =>
      if String.eqb k k' then (k, v) :: rest else (k', v') :: dict_set k v rest
  end.

Fixpoint dict_lookup (k : string) (d : list (string * pyval)) : option pyval :=
  match d with
  | [] => None
  | (k', v) :: rest => if String.eqb k k' then Some v else dict_lookup k rest
  end.

(** The entry built for one gathered result. *)
Definition batch_entry (result : exc + pyval) : pyval :=
  match result with
  | inl e => PDict [("success", PBool false); ("error", PStr (exc_str e))]
  | inr data => PDict [("success", PBool true); ("data", data)]
  end.

Inductive outcome (A : Type) :=
| Returns (a : A)
| Raises (e : exc)
| Hangs.
Arguments Returns {A} a.
Arguments Raises {A} e.
Arguments Hangs {A}.

(** [collect_batch_data]. [run symbol] is the outcome of the task
    [collect_with_semaphore(symbol)]; [asyncio.gather(..., return_exceptions=True)]
    returns the outcomes in task order, exceptions as values. A negative
    [max_concurrent] makes [asyncio.Semaphore] raise [ValueError]; with
    [max_concurrent = 0] no task ever enters the semaphore and the gather
    never completes. *)
Definition collect_batch_data (run : string -> exc + pyval) (symbols : list string)
    (max_concurrent : Z) : outcome (list (string * pyval)) :=
  if (max_concurrent <? 0)%Z
  then Raises (ValueError "Semaphore initial value must be >= 0")
  else if (max_concurrent =? 0)%Z && negb (List.length symbols =? 0)%nat then Hangs
  else
    let results := List.map run symbols in
    Returns (fold_left (fun acc '(symbol, result) => dict_set symbol (batch_entry result) acc)
               (combine symbols results) []).

Definition start_real_time_collection (symbol provider_name : string) (interval : Z)
    : DM unit :=
  handle_and_reraise
    (let key := task_key provider_name symbol in
     tasks <- dread collection_tasks ;;
     match tasks !! key with
     | Some _ => draise (DataCollectionError ("Collection already running for " +s+ key))
     | None => dmodify (fun st => set_tasks st (<[key := next_task st]> (collection_tasks st))
                                    (cancelled st) (S (next_task st)))
     end).

Definition stop_real_time_collection (symbol provider_name : string) : DM unit :=
  handle_and_reraise
    (let key := task_key provider_name symbol in
     tasks <- dread collection_tasks ;;
     match tasks !! key with
     | Some task =>
         dmodify (fun st => set_tasks st (delete key (collection_tasks st))
                              (cancelled st ++ [task]) (next_task st))
     | None => dret tt
     end).

(** A collector with no task and a fresh cache. *)
Definition empty_collector (providers : gmap string provider) : collector :=
  mkCollector providers CacheManager.default_cache [] [] ∅ [] O.

End DataCollector.

(** ** Further RateLimiter methods ([utils/rate_limiter.py]) *)
Module RateLimiterMore.
Import RateLimiter.
Section Clock.
Variable clock : nat -> Q.

(** [wait_if_needed]: on [RateLimitError] the coroutine sleeps
    [e.retry_after] seconds, which only lets time pass (the clock's later
    readings), then calls [acquire] once more; any other exception of the
    first [acquire] propagates. *)
Definition wait_if_needed : LM unit :=
  fun w => match acquire clock w with
           | (inl (RateLimitError _ _), w1) => acquire clock w1
           | r => r
           end.

(** [get_remaining_calls]: the minute count and the day count, the latter
    [float('inf')] without a daily cap. *)
Definition get_remaining_calls (l : limiter) : Z * bucket :=
  (minute_bucket l, match day_cap l with Some _ => day_bucket l | None => Inf end).

End Clock.
End RateLimiterMore.

(** ** AlphaVantageClient.get_intraday_data and get_technical_indicators

    Both methods share one shape: [acquire], then the request (session
    check, HTTP exchange and [_handle_response], whose outcome is
    [request]); [except Exception: log; raise] re-raises unchanged, and the
    [finally] clause awaits [self.rate_limiter.release()]. The parameters
    only enter the query string, so they are not modelled. *)
Module AlphaVantageMore.
Import RateLimiter.
Section Clock.
Variable clock : nat -> Q.

Definition limited_request (request : exc + pyval) : LM pyval :=
  try_finally
    (fun w => match acquire clock w with
              | (inl e, w1) => (inl e, w1)
              | (inr _, w1) => (request, w1)
              end)
    release.

Definition get_intraday_data (request : exc + pyval) : LM pyval :=
  limited_request request.

Definition get_technical_indicators (request : exc + pyval) : LM pyval :=
  limited_request request.

End Clock.
End AlphaVantageMore.

(** ** Further CacheManager methods ([utils/cache_manager.py])

    Every file of the disk tier is [<dir>/<key>.cache], so
    [disk_cache_dir.glob("*.cache")] lists exactly the files of [disk]. *)
Module CacheManagerMore.
Import CacheManager.

Local Notation "x <- m ;; k" := (cbind m (fun x => k))
  (at level 100, m at next level, right associativity).
Local Notation "m ;;; k" := (cbind m (fun _ => k))
  (at level 100, right associativity).

(** [delete]: [memory_cache.pop(key, None)] and the disk file. *)
Definition delete (key : string) : CM unit :=
  ccatch
    (modify (fun c => set_memory c (stdpp.base.delete key (memory_cache c))) ;;;
     dir <- read disk_cache_dir ;;
     if dir then _delete_from_disk key else cret tt)
    (fun e => craise (CacheError ("Cache deletion error: " +s+ exc_str e) "delete")).

(** [clear]: [memory_cache.clear()] and an [unlink] of every cache file. *)
Definition clear : CM unit :=
  ccatch
    (modify clear_memory ;;;
     dir <- read disk_cache_dir ;;
     if dir then modify (fun c => set_disk c ∅) else cret tt)
    (fun e => craise (CacheError ("Cache clear error: " +s+ exc_str e) "clear")).




End CacheManagerMore.

(** ** Further DataCollector methods ([services/data_collector.py]) *)
Module DataCollectorMore.
Import DataCollector.

Local Notation "m ;;; k" := (dbind m (fun _ => k))
  (at level 100, right associativity).

(** [get_active_collections]: the keys of the registry (as a set; the
    list order of the dict is not modelled). *)
Definition get_active_collections (st : collector) : gset string :=
  dom (collection_tasks st).


End DataCollectorMore.

(** ** ErrorHandler ([utils/error_handler.py])

    The handler's behaviour depends on an error only through
    [type(error).__name__], [str(error)] and which of [APIError],
    [ValidationError] and [RateLimitError] it is an instance of; errors are
    any type with those three observations. The returned [error_info] keeps
    its [error_type], [error_message] and [category] keys. Callbacks are
    functions of the info whose exceptions [_execute_callbacks] catches. *)
Module ErrorHandler.

Inductive error_kind := KAPIError | KValidationError | KRateLimitError | KOther.

Record error_info := mkInfo {
  error_type : string; error_message : string; category : string }.

Record handler := mkHandler {
  error_counts : gmap string Z;
  error_callbacks : gmap string (error_info -> exc + unit) }.

Definition category_of (k : error_kind) : string :=
  match k with
  | KAPIError => "api_error"
  | KValidationError => "validation_error"
  | KRateLimitError => "rate_limit_error"
  | KOther => "generic_error"
  end.

Section Errors.
Context {E : Type} (type_name : E -> string) (message : E -> string)
  (kind : E -> error_kind).

(** [_execute_callbacks]: an exception of the callback is logged. *)
Definition _execute_callbacks (h : handler) (etype : string) (info : error_info) : unit :=
  match error_callbacks h !! etype with
  | Some cb => match cb info with inl _ => tt | inr _ => tt end
  | None => tt
  end.

(** [handle_error]: count the error under its type name, build its info,
    run the callback. Nothing in the [try] body raises, so the fallback
    [except] clause is not reached. *)
Definition handle_error (h : handler) (error : E) : error_info * handler :=
  let etype := type_name error in
  let info := mkInfo etype (message error) (category_of (kind error)) in
  let h' := mkHandler
              (<[etype := (default 0 (error_counts h !! etype) + 1)%Z]> (error_counts h))
              (error_callbacks h) in
  let _ := _execute_callbacks h' etype info in
  (info, h').

(** [handle_batch_errors] over [errors.items()]. *)
Fixpoint handle_batch_errors (h : handler) (errors : list (string * E))
    : list (string * error_info) * handler :=
  match errors with
  | [] => ([], h)
  | (key, error) :: rest =>
      let (info, h1) := handle_error h error in
      let (results, h2) := handle_batch_errors h1 rest in
      ((key, info) :: results, h2)
  end.

End Errors.

(** [sum(self.error_counts.values())] *)
Definition total_errors (h : handler) : Z :=
  map_fold (fun _ v acc => (v + acc)%Z) 0%Z (error_counts h).

(** [clear_error_counts] *)
Definition clear_error_counts (h : handler) : handler :=
  mkHandler ∅ (error_callbacks h).

End ErrorHandler.

(** ** Lemmas on the Python numeric helpers *)

Lemma Qlt_bool_false (a b : Q) : (b <= a)%Q -> Qlt_bool a b = false.
Proof. intros H. unfold Qlt_bool. apply Qle_bool_iff in H. now rewrite H. Qed.

Lemma Qlt_bool_true (a b : Q) : (a < b)%Q -> Qlt_bool a b = true.
Proof.
  intros H. unfold Qlt_bool. destruct (Qle_bool b a) eqn:E; [|reflexivity].
  apply Qle_bool_iff in E. exfalso. apply (Qlt_not_le a b); assumption.
Qed.

Lemma py_int_nonneg (q : Q) : (0 <= q)%Q -> py_int q = Qfloor q.
Proof. intros H. unfold py_int. apply Qle_bool_iff in H. now rewrite H. Qed.

Lemma py_int_small (q : Q) : (0 <= q)%Q -> (q < 1)%Q -> py_int q = 0%Z.
Proof.
  intros H0 H1. rewrite py_int_nonneg by assumption.
  pose proof (Qfloor_le q) as Hle. pose proof (Qlt_floor q) as Hlt.
  destruct (Z.le_gt_cases (Qfloor q) 0) as [Hz|Hz].
  - destruct (Z.le_gt_cases 0 (Qfloor q)) as [Hz'|Hz']; [lia|].
    exfalso. assert (Qfloor q + 1 <= 0)%Z as Hn by lia.
    rewrite Zle_Qle in Hn. rewrite inject_Z_plus in Hlt, Hn.
    change (inject_Z 0) with 0%Q in Hn. lra.
  - exfalso. assert (1 <= Qfloor q)%Z as Hn by lia.
    rewrite Zle_Qle in Hn. change (inject_Z 1) with 1%Q in Hn. lra.
Qed.

Lemma py_int_lower (q : Q) (z : Z) :
  (0 <= z)%Z -> (inject_Z z <= q)%Q -> (z <= py_int q)%Z.
Proof.
  intros Hz Hq. assert (0 <= q)%Q as H0.
  { apply Qle_trans with (inject_Z z); [|assumption].
    change 0%Q with (inject_Z 0). now rewrite <- Zle_Qle. }
  rewrite py_int_nonneg by assumption.
  rewrite <- (Qfloor_Z z). now apply Qfloor_resp_le.
Qed.

Module RateLimiterFacts.
Import RateLimiter.
Section Clock.
Variable clock : nat -> Q.

Lemma drop_older_keep (h : Q) (dq : list Q) :
  Forall (fun c => (h <= c)%Q) dq -> drop_older h dq = dq.
Proof.
  intros H. destruct H as [|c rest Hc _]; [reflexivity|].
  simpl. now rewrite Qlt_bool_false.
Qed.

Ltac run_limiter :=
  cbv beta iota zeta delta [acquire _refill _cleanup_calls _get_minute_wait_time
    _get_day_wait_time bind ret raise get_lim put_lim time_time set_minute
    set_day set_calls lim tick calls_per_minute calls_per_day burst_size
    minute_bucket day_bucket last_minute_refill last_day_refill minute_calls
    day_calls].

(** A call that finds no token to add and a positive minute budget is
    granted: one token consumed, the call time appended. *)
Lemma acquire_grant (cpm burst mb : Z) (lmr ldr : Q) (mc dc : list Q) (t : nat) :
  (py_int ((clock t - lmr) / 60 * inject_Z cpm) <= 0)%Z ->
  (0 < mb)%Z ->
  Forall (fun c => (clock (S t) - 60 <= c)%Q) mc ->
  acquire clock (mkWorld (mkLimiter cpm None burst mb Inf lmr ldr mc dc) t) =
  (inr tt, mkWorld (mkLimiter cpm None burst (mb - 1) Inf lmr ldr
                      (mc ++ [clock (S (S t))]) dc) (S (S (S t)))).
Proof.
  intros Hn Hmb Hmc. run_limiter.
  rewrite (proj2 (Z.ltb_ge _ _) Hn). cbv beta iota delta [day_cap calls_per_day].
  rewrite (drop_older_keep _ _ Hmc).
  rewrite (proj2 (Z.leb_gt _ _) Hmb). reflexivity.
Qed.

(** A call that finds no token to add and an empty minute budget fails
    with the wait until the oldest recorded call leaves the window. *)
Lemma acquire_refuse (cpm burst mb : Z) (lmr ldr c0 : Q) (mc dc : list Q) (t : nat) :
  (py_int ((clock t - lmr) / 60 * inject_Z cpm) <= 0)%Z ->
  (mb <= 0)%Z ->
  Forall (fun c => (clock (S t) - 60 <= c)%Q) (c0 :: mc) ->
  acquire clock (mkWorld (mkLimiter cpm None burst mb Inf lmr ldr (c0 :: mc) dc) t) =
  (inl (RateLimitError "Rate limit exceeded"
          (py_int (py_max 0 (60 - (clock (S (S t)) - c0))))),
   mkWorld (mkLimiter cpm None burst mb Inf lmr ldr (c0 :: mc) dc) (S (S (S t)))).
Proof.
  intros Hn Hmb Hmc. run_limiter.
  rewrite (proj2 (Z.ltb_ge _ _) Hn). cbv beta iota delta [day_cap calls_per_day].
  rewrite (drop_older_keep _ _ Hmc). rewrite (proj2 (Z.leb_le _ _) Hmb).
  reflexivity.
Qed.

(** A call that finds at least one token to add is granted. *)
Lemma acquire_refilled (cpm burst mb : Z) (lmr ldr : Q) (mc dc : list Q) (t : nat) :
  (0 < py_int ((clock t - lmr) / 60 * inject_Z cpm))%Z ->
  (0 < Z.min burst (mb + py_int ((clock t - lmr) / 60 * inject_Z cpm)))%Z ->
  fst (acquire clock (mkWorld (mkLimiter cpm None burst mb Inf lmr ldr mc dc) t)) =
  inr tt.
Proof.
  intros Hn Hmb. run_limiter.
  rewrite (proj2 (Z.ltb_lt _ _) Hn). cbv beta iota delta [day_cap calls_per_day].
  rewrite (proj2 (Z.leb_gt _ _) Hmb). reflexivity.
Qed.

Lemma refill_shape (w : world) :
  let l := lim w in
  let n := py_int ((clock (tick w) - last_minute_refill l) / 60
                   * inject_Z (calls_per_minute l)) in
  fst (_refill clock w) = inr tt /\
  minute_bucket (lim (snd (_refill clock w))) =
    (if (0 <? n)%Z then Z.min (burst_size l) (minute_bucket l + n)
     else minute_bucket l) /\
  last_minute_refill (lim (snd (_refill clock w))) =
    (if (0 <? n)%Z then clock (tick w) else last_minute_refill l) /\
  burst_size (lim (snd (_refill clock w))) = burst_size l.
Proof.
  destruct w as [[cpm cpd b mb db lmr ldr mc dc] t]. cbn zeta.
  cbv beta iota zeta delta [_refill _cleanup_calls bind ret get_lim put_lim
    time_time set_minute set_day set_calls lim tick calls_per_minute
    calls_per_day burst_size minute_bucket day_bucket last_minute_refill
    last_day_refill minute_calls day_calls fst snd].
  destruct (0 <? _)%Z; cbv beta iota;
    destruct (day_cap _); try destruct (Qle_bool _ _); cbn; auto.
Qed.

Lemma acquire_keeps_cap (w : world) :
  (minute_bucket (lim w) <= burst_size (lim w))%Z ->
  (minute_bucket (lim (snd (acquire clock w)))
     <= burst_size (lim (snd (acquire clock w))))%Z.
Proof.
  intros Hcap.
  destruct (refill_shape w) as (_ & Hmb & _ & Hb). cbn zeta in Hmb, Hb.
  cbv beta delta [acquire bind].
  destruct (_refill clock w) as [r1 w1] eqn:E.
  cbn [snd] in Hmb, Hb.
  assert (Hw1 : (minute_bucket (lim w1) <= burst_size (lim w1))%Z).
  { rewrite Hmb, Hb. destruct (0 <? _)%Z; lia. }
  destruct r1 as [e|[]]; [exact Hw1|].
  cbv beta iota zeta delta [get_lim put_lim time_time ret raise set_minute
    set_day set_calls _get_minute_wait_time _get_day_wait_time bind].
  destruct (minute_bucket (lim w1) <=? 0)%Z eqn:Hz.
  - destruct (minute_calls (lim w1)); cbn; exact Hw1.
  - destruct (bucket_le_0 _).
    + destruct (day_cap (lim w1)), (day_calls (lim w1)); cbn; exact Hw1.
    + destruct (day_cap _), (day_bucket _); cbn; lia.
Qed.

Lemma acquire_n_snd (k : nat) (w : world) :
  snd (acquire_n clock (S k) w) = snd (acquire_n clock k (snd (acquire clock w))).
Proof.
  cbn [acquire_n]. destruct (acquire clock w) as [r w1]. cbn [snd].
  destruct (acquire_n clock k w1). reflexivity.
Qed.

End Clock.
End RateLimiterFacts.

Lemma acquire_n_S (clock : nat -> Q) (k : nat) (w : RateLimiter.world) :
  RateLimiter.acquire_n clock (S k) w =
  let (r, w1) := RateLimiter.acquire clock w in
  let (rs, w2) := RateLimiter.acquire_n clock k w1 in (r :: rs, w2).
Proof. reflexivity. Qed.

Lemma no_new_token (c0 c : Q) :
  (c0 <= c)%Q -> (c < c0 + 1)%Q -> (py_int ((c - c0) / 60 * inject_Z 5) <= 0)%Z.
Proof.
  intros H1 H2. change (inject_Z 5) with 5%Q.
  assert (E : ((c - c0) / 60 * 5 == (c - c0) * (1 # 12))%Q) by field.
  rewrite py_int_small; [lia| |]; rewrite E; lra.
Qed.

(** ** Claims *)

(** Every reading in a list of clock readings falls in the window. *)
Ltac in_window Hw :=
  cbn [app]; repeat (constructor; [apply Hw; lia|]); constructor.

(** C2: a limiter built with [calls_per_minute = 5] and no burst size grants
    five [acquire()] calls made within one second of its construction, refuses
    the sixth with [RateLimitError] whose [retry_after] is positive, and grants
    a call made 60 seconds after the sixth. Every [time.time()] reading of
    the constructor and of the first six calls (readings 0..19) lies in the
    first second; reading 20 (the refill of the seventh call) is 60 seconds
    later. *)
Theorem rate_limiter_five_calls_per_minute (clock : nat -> Q) :
  (forall i, (i < 20)%nat -> (clock O <= clock i < clock O + 1)%Q) ->
  (clock 19%nat + 60 <= clock 20%nat)%Q ->
  exists r w,
    RateLimiter.acquire_n clock 7 (RateLimiter.init clock 5 None None 0) =
    ([inr tt; inr tt; inr tt; inr tt; inr tt;
      inl (RateLimitError "Rate limit exceeded" r); inr tt], w) /\
    (0 < r)%Z.
Proof.
  intros H H20.
  assert (Hw : forall i j, (i < 20)%nat -> (j < 20)%nat -> (clock i - 60 <= clock j)%Q).
  { intros i j Hi Hj. destruct (H i Hi). destruct (H j Hj). lra. }
  assert (Ht : forall t, (t < 20)%nat ->
            (py_int ((clock t - clock O) / 60 * inject_Z 5) <= 0)%Z).
  { intros t Ht. destruct (H t Ht). now apply no_new_token. }
  change (RateLimiter.init clock 5 None None 0) with
    (RateLimiter.mkWorld (RateLimiter.mkLimiter 5 None 5 5 RateLimiter.Inf
       (clock 0) (clock 1) [] []) 2).
  do 5 (rewrite acquire_n_S; rewrite RateLimiterFacts.acquire_grant
          by (first [apply Ht; lia | lia | in_window Hw]);
        cbv beta iota; cbn [app]).
  rewrite acquire_n_S.
  rewrite RateLimiterFacts.acquire_refuse
    by (first [apply Ht; lia | lia | in_window Hw]).
  cbv beta iota. rewrite acquire_n_S.
  destruct (RateLimiter.acquire clock _) as [r7 w7] eqn:E7.
  assert (Hq : (5 <= py_int ((clock 20%nat - clock O) / 60 * inject_Z 5))%Z).
  { apply py_int_lower; [lia|]. destruct (H 19%nat) as [H19 _]; [lia|].
    change (inject_Z 5) with 5%Q.
    assert (E : ((clock 20%nat - clock O) / 60 * 5
                 == (clock 20%nat - clock O) * (1 # 12))%Q) by field.
    rewrite E. lra. }
  assert (Hr7 : r7 = inr tt).
  { pose proof (f_equal fst E7) as F7. cbn [fst] in F7. rewrite <- F7.
    apply RateLimiterFacts.acquire_refilled; lia. }
  subst r7. cbn [RateLimiter.acquire_n]. eexists _, _. split; [reflexivity|].
  destruct (H 4%nat) as [H4 _]; [lia|]. destruct (H 19%nat) as [_ H19]; [lia|].
  unfold py_max. rewrite (Qlt_bool_true 0 _) by lra.
  enough (59 <= py_int (60 - (clock 19%nat - clock 4%nat)))%Z by lia.
  apply py_int_lower; [lia|]. change (inject_Z 59) with 59%Q. lra.
Qed.

(** A clock whose readings 0..19 are hundredths of a second and whose later
    readings are a minute and more after them. *)
Definition demo_clock (i : nat) : Q :=
  if (i <=? 19)%nat then (Z.of_nat i # 100)%Q else (80 + Z.of_nat i # 1)%Q.

Lemma rate_limiter_five_calls_per_minute_witness :
  (demo_clock 19%nat + 60 <= demo_clock 20%nat)%Q /\
  exists r w,
    RateLimiter.acquire_n demo_clock 7 (RateLimiter.init demo_clock 5 None None 0) =
    ([inr tt; inr tt; inr tt; inr tt; inr tt;
      inl (RateLimitError "Rate limit exceeded" r); inr tt], w) /\
    (0 < r)%Z.
Proof.
  split; [vm_compute; discriminate|].
  apply rate_limiter_five_calls_per_minute.
  - intros i Hi.
    do 20 (destruct i as [|i]; [split; [vm_compute; discriminate | reflexivity]|]).
    lia.
  - vm_compute. discriminate.
Defined.

(** C6: [utils.rate_limiter.RateLimiter] defines no [release] method, so
    [await limiter.release()] raises [AttributeError] on every limiter
    state, and [AlphaVantageClient.fetch_data], whose [finally] clause calls
    it, raises that [AttributeError] whatever the request outcome. *)
Theorem rate_limiter_release_missing (clock : nat -> Q) :
  forall (w : RateLimiter.world),
    RateLimiter.release w =
      (inl (AttributeError "'RateLimiter' object has no attribute 'release'"), w) /\
    forall (request : exc + pyval),
      fst (AlphaVantageClient.fetch_data clock request w) =
      inl (AttributeError "'RateLimiter' object has no attribute 'release'").
Proof.
  intros w. split; [reflexivity|].
  intros request. unfold AlphaVantageClient.fetch_data, RateLimiter.try_finally.
  destruct (RateLimiter.acquire clock w) as [[e|[]] w1];
    [destruct e | destruct request as [e|v]; [destruct e|]];
    reflexivity.
Qed.

(** C7 (as stated, refuted): a limiter with [calls_per_minute = 5], burst 5,
    no token left and its last minute refill at time 0 is refilled at time
    18 s. Linear fractional refill would give min(5, 0 + 18/60 * 5) = 3/2
    tokens; the code adds [int(1.5)] = 1 token. *)
Lemma refill_fractional_counterexample :
  let w0 := RateLimiter.mkWorld
              (RateLimiter.mkLimiter 5 None 5 0 RateLimiter.Inf 0 0 [] []) O in
  let clock := fun _ : nat => 18%Q in
  RateLimiter.minute_bucket (RateLimiter.lim (snd (RateLimiter._refill clock w0))) = 1%Z /\
  ~ (inject_Z (RateLimiter.minute_bucket
                 (RateLimiter.lim (snd (RateLimiter._refill clock w0))))
     == Qmin 5 (0 + 18 / 60 * 5))%Q.
Proof. split; vm_compute; [reflexivity | discriminate]. Qed.

(** C7 (amended): a minute refill adds the integer part
    [n = int(elapsed_minutes * calls_per_minute)] of the linear amount, and
    only when [n > 0]: the minute token count becomes
    [min(burst_size, tokens + n)] and the refill clock moves to the current
    time; otherwise count and refill clock stay. From construction, over any
    sequence of [acquire()] calls, the minute token count never exceeds
    [burst_size]. *)
Theorem refill_minute_bucket_integral (clock : nat -> Q) :
  (forall w : RateLimiter.world,
     let l := RateLimiter.lim w in
     let n := py_int ((clock (RateLimiter.tick w) - RateLimiter.last_minute_refill l) / 60
                      * inject_Z (RateLimiter.calls_per_minute l)) in
     let l' := RateLimiter.lim (snd (RateLimiter._refill clock w)) in
     fst (RateLimiter._refill clock w) = inr tt /\
     RateLimiter.minute_bucket l' =
       (if (0 <? n)%Z then Z.min (RateLimiter.burst_size l) (RateLimiter.minute_bucket l + n)
        else RateLimiter.minute_bucket l) /\
     RateLimiter.last_minute_refill l' =
       (if (0 <? n)%Z then clock (RateLimiter.tick w) else RateLimiter.last_minute_refill l)) /\
  (forall cpm cpd burst k,
     let l := RateLimiter.lim
                (snd (RateLimiter.acquire_n clock k (RateLimiter.init clock cpm cpd burst 0))) in
     (RateLimiter.minute_bucket l <= RateLimiter.burst_size l)%Z).
Proof.
  split.
  - intros w. destruct (RateLimiterFacts.refill_shape clock w) as (H1 & H2 & H3 & _).
    cbn zeta in *. auto.
  - intros cpm cpd burst k. cbn zeta.
    assert (Hinit : (RateLimiter.minute_bucket (RateLimiter.lim (RateLimiter.init clock cpm cpd burst 0))
              <= RateLimiter.burst_size (RateLimiter.lim (RateLimiter.init clock cpm cpd burst 0)))%Z)
      by (cbn; lia).
    revert Hinit. generalize (RateLimiter.init clock cpm cpd burst 0) as w.
    induction k as [|k IH]; intros w Hw; [exact Hw|].
    rewrite RateLimiterFacts.acquire_n_snd. apply IH.
    now apply RateLimiterFacts.acquire_keeps_cap.
Qed.

Ltac run_cache :=
  cbv beta iota zeta delta [CacheManager.get CacheManager.set CacheManager.ccatch
    CacheManager.cbind CacheManager.cret CacheManager.craise CacheManager.lift
    CacheManager.modify CacheManager.read CacheManager._read_from_disk
    CacheManager.read_from_disk_body CacheManager._write_to_disk
    CacheManager._delete_from_disk CacheManager.clear_memory
    CacheManager.memory_get CacheManager.memory_set CacheManager.set_memory
    CacheManager.set_disk CacheManager.set_stats CacheManager.bump_memory_hits
    CacheManager.bump_memory_misses CacheManager.bump_disk_hits
    CacheManager.bump_disk_misses CacheManager.memory_cache CacheManager.memory_ttl
    CacheManager.disk_cache_dir CacheManager.disk CacheManager.cstats
    CacheManager.memory_hits CacheManager.memory_misses CacheManager.disk_hits
    CacheManager.disk_misses negb is_none fst snd].

(** C3: with both tiers configured, after [set(key, v, ttl=60)] and a clear
    of the memory tier, [get(key)] does not find the disk record: the record
    stores its [timestamp] as a formatted string, the TTL check computes
    [time.time() - cache_data["timestamp"]], which raises [TypeError], and
    [_read_from_disk] turns that into a miss. [get] returns [None], counts a
    disk miss, no disk hit, and promotes nothing into the memory tier. *)
Theorem cache_promotion_ttl_record_missed (strftime : Q -> string)
    (c : CacheManager.cache) (key : string) (v : pyval) (t1 t2 : Q) :
  CacheManager.disk_cache_dir c = true ->
  let c2 := CacheManager.clear_memory (snd (CacheManager.set strftime key v (PInt 60) t1 c)) in
  let c3 := snd (CacheManager.get key t2 c2) in
  fst (CacheManager.get key t2 c2) = inr PNone /\
  CacheManager.disk_hits (CacheManager.cstats c3) = CacheManager.disk_hits (CacheManager.cstats c) /\
  CacheManager.disk_misses (CacheManager.cstats c3) = (CacheManager.disk_misses (CacheManager.cstats c) + 1)%Z /\
  CacheManager.memory_cache c3 = ∅.
Proof.
  destruct c as [m mttl dir d [mh mm dh dm]]. cbn [CacheManager.disk_cache_dir].
  intros ->. run_cache.
  rewrite lookup_empty. cbv beta iota zeta.
  rewrite lookup_insert_eq. cbv beta iota zeta. simpl.
  repeat split.
Qed.

Lemma cache_promotion_ttl_record_missed_witness :
  CacheManager.disk_cache_dir CacheManager.default_cache = true /\
  let sf := fun _ : Q => "2026-10-16 00:00:00"%string in
  let c2 := CacheManager.clear_memory
              (snd (CacheManager.set sf "k" (PInt 7) (PInt 60) 0 CacheManager.default_cache)) in
  let c3 := snd (CacheManager.get "k" 1 c2) in
  fst (CacheManager.get "k" 1 c2) = inr PNone /\
  CacheManager.disk_hits (CacheManager.cstats c3) = 0%Z /\
  CacheManager.disk_misses (CacheManager.cstats c3) = (0 + 1)%Z /\
  CacheManager.memory_cache c3 = ∅.
Proof.
  split; [reflexivity|].
  exact (cache_promotion_ttl_record_missed _ CacheManager.default_cache "k" (PInt 7) 0 1
           eq_refl).
Defined.

(** C4 (as stated, refuted): on a fresh [CacheManager()] (memory TTL 300 s),
    after [set("k", 7, ttl=1)] at time 0, [get("k")] at time 2 returns 7:
    the memory tier still holds the value. *)
Lemma cache_disk_ttl_expiry_counterexample :
  let sf := fun _ : Q => "2026-10-16 00:00:00"%string in
  let c1 := snd (CacheManager.set sf "k" (PInt 7) (PInt 1) 0 CacheManager.default_cache) in
  fst (CacheManager.get "k" 2 c1) = inr (PInt 7).
Proof. vm_compute. reflexivity. Qed.

(** C4 (amended): the per-entry [ttl] given to [set] governs only the disk
    record. Until the memory tier's own TTL ([memory_ttl], default 300 s)
    has elapsed since [set(key, v, ttl)] of a non-None [v], [get(key)]
    returns [v] from the memory tier and counts a memory hit, whatever
    [ttl] is. *)
Theorem cache_memory_tier_outlives_disk_ttl (strftime : Q -> string)
    (c : CacheManager.cache) (key : string) (v ttl : pyval) (t1 t2 : Q) :
  v <> PNone ->
  (t2 < t1 + CacheManager.memory_ttl c)%Q ->
  let c1 := snd (CacheManager.set strftime key v ttl t1 c) in
  fst (CacheManager.get key t2 c1) = inr v /\
  CacheManager.memory_hits (CacheManager.cstats (snd (CacheManager.get key t2 c1))) =
    (CacheManager.memory_hits (CacheManager.cstats c) + 1)%Z.
Proof.
  destruct c as [m mttl dir d [mh mm dh dm]]. cbn [CacheManager.memory_ttl].
  intros Hv Ht. run_cache.
  destruct dir; cbv beta iota zeta; rewrite lookup_insert_eq;
    rewrite (Qlt_bool_true _ _ Ht); cbv beta iota zeta;
    (destruct v; [contradiction| ..]); cbn; split; reflexivity.
Qed.

Lemma cache_memory_tier_outlives_disk_ttl_witness :
  let sf := fun _ : Q => "2026-10-16 00:00:00"%string in
  PInt 7 <> PNone /\ (2 < 0 + CacheManager.memory_ttl CacheManager.default_cache)%Q /\
  let c1 := snd (CacheManager.set sf "k" (PInt 7) (PInt 1) 0 CacheManager.default_cache) in
  fst (CacheManager.get "k" 2 c1) = inr (PInt 7) /\
  CacheManager.memory_hits (CacheManager.cstats (snd (CacheManager.get "k" 2 c1))) =
    (CacheManager.memory_hits (CacheManager.cstats CacheManager.default_cache) + 1)%Z.
Proof.
  split; [discriminate|]. split; [reflexivity|].
  apply cache_memory_tier_outlives_disk_ttl; [discriminate | reflexivity].
Defined.

(** C5 (as stated, refuted): a fresh cache whose disk file for "k" cannot
    be read: [get("k")] returns [None] instead of raising [CacheError]. *)
Lemma cache_disk_read_error_counterexample :
  let c := CacheManager.set_disk CacheManager.default_cache
             (<["k" := CacheManager.FileUnreadable]> ∅) in
  fst (CacheManager.get "k" 0 c) = inr PNone.
Proof. vm_compute. reflexivity. Qed.

(** C5 (amended): [_read_from_disk] catches every exception of the disk
    read. When the memory tier misses and the disk file for the key cannot
    be read or cannot be decoded, [get(key)] logs the failure and treats it
    as a miss: it returns [None], raises nothing, and counts one memory miss
    and one disk miss. *)
Theorem cache_disk_read_failure_is_miss (c : CacheManager.cache) (key : string)
    (now : Q) (f : CacheManager.disk_file) :
  CacheManager.memory_get c key now = PNone ->
  CacheManager.disk_cache_dir c = true ->
  CacheManager.disk c !! key = Some f ->
  f = CacheManager.FileUnreadable \/ f = CacheManager.FileUndecodable ->
  CacheManager.get key now c =
    (inr PNone, CacheManager.bump_disk_misses (CacheManager.bump_memory_misses c)).
Proof.
  destruct c as [m mttl dir d [mh mm dh dm]].
  cbn [CacheManager.disk_cache_dir CacheManager.disk].
  unfold CacheManager.memory_get. cbn [CacheManager.memory_cache].
  intros Hm -> Hd Hf. run_cache.
  destruct (m !! key) as [[v0 x]|]; [destruct (Qlt_bool now x)|]; try subst v0;
    cbv beta iota zeta; rewrite Hd;
    destruct Hf as [->| ->]; reflexivity.
Qed.

Lemma cache_disk_read_failure_is_miss_witness :
  let c := CacheManager.set_disk CacheManager.default_cache
             (<["k" := CacheManager.FileUndecodable]> ∅) in
  CacheManager.get "k" 0 c =
    (inr PNone, CacheManager.bump_disk_misses (CacheManager.bump_memory_misses c)).
Proof.
  apply (cache_disk_read_failure_is_miss _ "k" 0 CacheManager.FileUndecodable);
    [reflexivity | reflexivity | vm_compute; reflexivity | right; reflexivity].
Defined.

Module DataCollectorFacts.
Import DataCollector.

(** The symbols of a list in the order of their first occurrence. *)
Definition first_occurrence_order (l : list string) : list string :=
  fold_left (fun acc s => if existsb (String.eqb s) acc then acc else acc ++ [s]) l [].

Lemma dict_set_keys (k : string) (v : pyval) (d : list (string * pyval)) :
  map fst (dict_set k v d) =
  if existsb (String.eqb k) (map fst d) then map fst d else map fst d ++ [k].
Proof.
  induction d as [|[k' v'] rest IH]; [reflexivity|]. cbn.
  destruct (String.eqb k k') eqn:E; cbn.
  - apply String.eqb_eq in E. now subst.
  - rewrite IH. now destruct (existsb _ _).
Qed.

Lemma dict_lookup_set (s k : string) (v : pyval) (d : list (string * pyval)) :
  dict_lookup s (dict_set k v d) =
  if String.eqb s k then Some v else dict_lookup s d.
Proof.
  induction d as [|[k' v'] rest IH]; cbn.
  - now destruct (String.eqb s k).
  - destruct (String.eqb k k') eqn:E; cbn.
    + apply String.eqb_eq in E. subst k'. now destruct (String.eqb s k).
    + rewrite IH. destruct (String.eqb s k') eqn:E1, (String.eqb s k) eqn:E2; try reflexivity.
      apply String.eqb_eq in E1, E2. subst. now rewrite String.eqb_refl in E.
Qed.

Lemma combine_map_self {A B} (f : A -> B) (l : list A) :
  combine l (map f l) = map (fun x => (x, f x)) l.
Proof. induction l as [|x l IH]; cbn; [reflexivity|now rewrite IH]. Qed.

Definition batch_step (acc : list (string * pyval)) (p : string * (exc + pyval)) :=
  let '(symbol, result) := p in dict_set symbol (batch_entry result) acc.

Lemma batch_keys (run : string -> exc + pyval) (l : list string) acc :
  map fst (fold_left batch_step (map (fun x => (x, run x)) l) acc) =
  fold_left (fun acc s => if existsb (String.eqb s) acc then acc else acc ++ [s])
    l (map fst acc).
Proof.
  revert acc. induction l as [|x l IH]; intros acc; [reflexivity|].
  cbn. rewrite IH. cbn. now rewrite dict_set_keys.
Qed.

Lemma batch_lookup (run : string -> exc + pyval) (l : list string) acc (s : string) :
  dict_lookup s (fold_left batch_step (map (fun x => (x, run x)) l) acc) =
  if existsb (String.eqb s) l then Some (batch_entry (run s)) else dict_lookup s acc.
Proof.
  revert acc. induction l as [|x l IH]; intros acc; [reflexivity|].
  cbn. rewrite IH, dict_lookup_set.
  destruct (String.eqb s x) eqn:E; cbn; destruct (existsb _ l); try reflexivity.
  apply String.eqb_eq in E. now subst.
Qed.

Fixpoint has_underscore (s : string) : bool :=
  match s with
  | EmptyString => false
  | String c rest => Ascii.eqb c "_"%char || has_underscore rest
  end.

Lemma append_nil_s (b : string) : EmptyString +s+ b = b.
Proof. reflexivity. Qed.

Lemma append_cons_s (x : ascii) (a b : string) : String x a +s+ b = String x (a +s+ b).
Proof. reflexivity. Qed.

Lemma append_assoc_s (a b c : string) : (a +s+ b) +s+ c = a +s+ (b +s+ c).
Proof.
  induction a as [|x a IH]; [reflexivity|].
  rewrite !append_cons_s. now rewrite IH.
Qed.

Lemma has_underscore_sep (a b : string) : has_underscore (a +s+ String "_"%char b) = true.
Proof.
  induction a as [|x a IH]; [reflexivity|].
  rewrite append_cons_s. cbn [has_underscore]. now rewrite IH, orb_true_r.
Qed.

(** Splitting at the last separator: the part after it has no underscore. *)
Lemma split_last_sep (p1 p2 r1 r2 : string) :
  has_underscore r1 = false -> has_underscore r2 = false ->
  p1 +s+ "_" +s+ r1 = p2 +s+ "_" +s+ r2 -> p1 = p2 /\ r1 = r2.
Proof.
  revert p2. induction p1 as [|c1 p1 IH]; intros [|c2 p2] H1 H2 E;
    repeat rewrite ?append_nil_s, ?append_cons_s in E.
  - now injection E as ->.
  - injection E as <- E. subst r1. now rewrite has_underscore_sep in H1.
  - injection E as -> E. subst r2. now rewrite has_underscore_sep in H2.
  - injection E as -> E. destruct (IH p2 H1 H2 E) as [-> ->]. now split.
Qed.

Lemma cache_key_right (p s a b : string) :
  cache_key p s a b = ((p +s+ "_" +s+ s) +s+ "_" +s+ a) +s+ "_" +s+ b.
Proof. unfold cache_key. now rewrite !append_assoc_s. Qed.

End DataCollectorFacts.

(** C1: for every gathered outcome of the per-symbol tasks (given as a
    function of the symbol: [inl] when its [collect_data] raised, [inr] with
    its result otherwise) and every positive [max_concurrent],
    [collect_batch_data] returns without raising a mapping whose keys are the
    input symbols in input order (first occurrences) and whose entry for each
    symbol is [{success: True, data: result}] or
    [{success: False, error: str(e)}] according to that symbol's own outcome
    alone. *)
Theorem collect_batch_data_isolation (run : string -> exc + pyval)
    (symbols : list string) (max_concurrent : Z) :
  (0 < max_concurrent)%Z ->
  exists results,
    DataCollector.collect_batch_data run symbols max_concurrent =
      DataCollector.Returns results /\
    map fst results = DataCollectorFacts.first_occurrence_order symbols /\
    forall s, In s symbols ->
      DataCollector.dict_lookup s results =
      Some (match run s with
            | inl e => PDict [("success", PBool false); ("error", PStr (exc_str e))]
            | inr data => PDict [("success", PBool true); ("data", data)]
            end).
Proof.
  intros Hpos. unfold DataCollector.collect_batch_data.
  rewrite (proj2 (Z.ltb_ge _ _)) by lia.
  rewrite (proj2 (Z.eqb_neq _ _)) by lia. cbn [andb].
  rewrite DataCollectorFacts.combine_map_self.
  eexists. split; [reflexivity|]. split.
  - apply (DataCollectorFacts.batch_keys run symbols []).
  - intros s Hs.
    pose proof (DataCollectorFacts.batch_lookup run symbols [] s) as L.
    assert (existsb (String.eqb s) symbols = true) as E.
    { apply existsb_exists. exists s. split; [exact Hs|]. apply String.eqb_refl. }
    rewrite E in L. exact L.
Qed.

Lemma collect_batch_data_isolation_witness :
  let run := fun s : string =>
    if String.eqb s "B" then inl (DataCollectionError "provider failed for B")
    else inr (PInt 1) in
  (0 < 5)%Z /\
  exists results,
    DataCollector.collect_batch_data run ["A"; "B"; "C"] 5 = DataCollector.Returns results /\
    map fst results = DataCollectorFacts.first_occurrence_order ["A"; "B"; "C"] /\
    forall s, In s ["A"; "B"; "C"] ->
      DataCollector.dict_lookup s results =
      Some (match run s with
            | inl e => PDict [("success", PBool false); ("error", PStr (exc_str e))]
            | inr data => PDict [("success", PBool true); ("data", data)]
            end).
Proof.
  split; [reflexivity|].
  apply collect_batch_data_isolation. reflexivity.
Defined.

(** C8 (as stated, refuted): the registry is keyed by the string
    [provider_name + "_" + symbol], so the pairs ("yahoo_finance", "IBM")
    and ("yahoo", "finance_IBM") share a slot. After starting the first, the
    second pair, which has no task of its own, cannot be started, and
    stopping it is no no-op: it cancels the first pair's task. *)
Lemma task_key_collision_counterexample :
  let st1 := snd (DataCollector.start_real_time_collection "IBM" "yahoo_finance" 60
                    (DataCollector.empty_collector ∅)) in
  fst (DataCollector.start_real_time_collection "finance_IBM" "yahoo" 60 st1) =
    inl (DataCollectionError "Collection already running for yahoo_finance_IBM") /\
  DataCollector.cancelled (snd (DataCollector.stop_real_time_collection "finance_IBM" "yahoo" st1))
    = [0%nat] /\
  DataCollector.collection_tasks
    (snd (DataCollector.stop_real_time_collection "finance_IBM" "yahoo" st1)) = ∅.
Proof. vm_compute. repeat split. Qed.

(** C8 (amended): the registry is keyed by [task_key provider symbol]
    ([provider + "_" + symbol]). [start_real_time_collection] raises the
    "Collection already running" [DataCollectionError] when that key is
    registered; when it is not, [stop_real_time_collection] returns without
    raising and changes nothing, and [start] succeeds; when it is, [stop]
    returns without raising, cancels the registered task and removes the
    key, after which [start] succeeds. *)
Theorem task_registry_by_task_key (st : DataCollector.collector)
    (symbol provider_name : string) (interval : Z) :
  let key := DataCollector.task_key provider_name symbol in
  (forall task, DataCollector.collection_tasks st !! key = Some task ->
     fst (DataCollector.start_real_time_collection symbol provider_name interval st) =
       inl (DataCollectionError ("Collection already running for " +s+ key))) /\
  (DataCollector.collection_tasks st !! key = None ->
     DataCollector.stop_real_time_collection symbol provider_name st = (inr tt, st) /\
     fst (DataCollector.start_real_time_collection symbol provider_name interval st) = inr tt) /\
  (forall task, DataCollector.collection_tasks st !! key = Some task ->
     let st' := snd (DataCollector.stop_real_time_collection symbol provider_name st) in
     fst (DataCollector.stop_real_time_collection symbol provider_name st) = inr tt /\
     DataCollector.collection_tasks st' = delete key (DataCollector.collection_tasks st) /\
     In task (DataCollector.cancelled st') /\
     fst (DataCollector.start_real_time_collection symbol provider_name interval st') = inr tt).
Proof.
  cbv zeta.
  unfold DataCollector.start_real_time_collection, DataCollector.stop_real_time_collection,
    DataCollector.handle_and_reraise, DataCollector.dbind, DataCollector.dread,
    DataCollector.draise, DataCollector.dmodify, DataCollector.dret.
  split; [|split].
  - intros task H. now rewrite H.
  - intros H. now rewrite H.
  - intros task H. rewrite H. cbn. rewrite lookup_delete_eq.
    repeat split. apply in_or_app. right. now left.
Qed.

Lemma task_registry_by_task_key_witness :
  let st1 := snd (DataCollector.start_real_time_collection "IBM" "yahoo_finance" 60
                    (DataCollector.empty_collector ∅)) in
  DataCollector.collection_tasks st1 !! DataCollector.task_key "yahoo_finance" "IBM" = Some 0%nat /\
  let st' := snd (DataCollector.stop_real_time_collection "IBM" "yahoo_finance" st1) in
  fst (DataCollector.stop_real_time_collection "IBM" "yahoo_finance" st1) = inr tt /\
  DataCollector.collection_tasks st' =
    delete (DataCollector.task_key "yahoo_finance" "IBM") (DataCollector.collection_tasks st1) /\
  In 0%nat (DataCollector.cancelled st') /\
  fst (DataCollector.start_real_time_collection "IBM" "yahoo_finance" 60 st') = inr tt.
Proof.
  split; [vm_compute; reflexivity|].
  apply (proj2 (proj2 (task_registry_by_task_key _ "IBM" "yahoo_finance" 60)) 0%nat).
  vm_compute. reflexivity.
Defined.

(** C9 (as stated, refuted): the historical cache key joins its four parts
    with an underscore, so distinct tuples whose parts contain underscores
    share a key: ("yahoo_finance", "IBM") and ("yahoo", "finance_IBM") with
    the same dates. *)
Lemma cache_key_collision_counterexample :
  DataCollector.cache_key "yahoo_finance" "IBM" "2024-01-01 00:00:00" "2024-02-01 00:00:00" =
  DataCollector.cache_key "yahoo" "finance_IBM" "2024-01-01 00:00:00" "2024-02-01 00:00:00" /\
  "yahoo_finance"%string <> "yahoo"%string.
Proof. split; [reflexivity | discriminate]. Qed.

(** C9 (amended): the key is a function of (provider, symbol, str(start),
    str(end)), hence the same for identical inputs, and two tuples whose
    symbol and date strings contain no underscore (the [str] of a datetime
    never does; the provider name may) have the same key only if they are
    equal. *)
Theorem cache_key_injective_without_underscore (p1 s1 a1 b1 p2 s2 a2 b2 : string) :
  DataCollectorFacts.has_underscore s1 = false ->
  DataCollectorFacts.has_underscore a1 = false ->
  DataCollectorFacts.has_underscore b1 = false ->
  DataCollectorFacts.has_underscore s2 = false ->
  DataCollectorFacts.has_underscore a2 = false ->
  DataCollectorFacts.has_underscore b2 = false ->
  DataCollector.cache_key p1 s1 a1 b1 = DataCollector.cache_key p2 s2 a2 b2 ->
  p1 = p2 /\ s1 = s2 /\ a1 = a2 /\ b1 = b2.
Proof.
  intros Hs1 Ha1 Hb1 Hs2 Ha2 Hb2 E.
  rewrite !DataCollectorFacts.cache_key_right in E.
  destruct (DataCollectorFacts.split_last_sep _ _ _ _ Hb1 Hb2 E) as [E1 ->].
  destruct (DataCollectorFacts.split_last_sep _ _ _ _ Ha1 Ha2 E1) as [E2 ->].
  destruct (DataCollectorFacts.split_last_sep _ _ _ _ Hs1 Hs2 E2) as [-> ->].
  auto.
Qed.

Lemma cache_key_injective_without_underscore_witness :
  DataCollector.cache_key "yahoo_finance" "IBM" "2024-01-01 00:00:00" "2024-02-01 00:00:00" =
  DataCollector.cache_key "yahoo_finance" "IBM" "2024-01-01 00:00:00" "2024-02-01 00:00:00" /\
  "yahoo_finance"%string = "yahoo_finance"%string /\ "IBM"%string = "IBM"%string /\
  "2024-01-01 00:00:00"%string = "2024-01-01 00:00:00"%string /\
  "2024-02-01 00:00:00"%string = "2024-02-01 00:00:00"%string.
Proof.
  split; [reflexivity|].
  apply cache_key_injective_without_underscore;
    [reflexivity | reflexivity | reflexivity | reflexivity | reflexivity | reflexivity
    | reflexivity].
Defined.

Module DataCollectorTrace.
Import DataCollector.

(** Once the provider is found, the fetch is logged before anything else and
    the rest of the pipeline only appends to the trace. *)
Lemma fetch_pipeline_logs_fetch (strftime : Q -> string) (st : collector)
    (symbol p sd ed : string) (use_cache : bool) (now : Q) (prov : provider) :
  providers st !! p = Some prov ->
  exists rest, trace (snd (fetch_pipeline strftime symbol p sd ed use_cache now st)) =
               trace st ++ EvFetch symbol sd ed :: rest.
Proof.
  intros Hp. unfold fetch_pipeline, dbind, dread, dmodify, dlift, draise, dret.
  rewrite Hp.
  destruct (fetch_data prov symbol sd ed) as [e|data]; [cbn; now exists []|].
  destruct (validate_response prov data); cbn [negb].
  2: { cbn. now exists [EvValidate]; rewrite <- app_assoc. }
  destruct (transform_data prov data) as [e|td]; cbn.
  { exists [EvValidate; EvTransform]. now rewrite <- !app_assoc. }
  destruct use_cache; cbn.
  - unfold with_cache.
    destruct (CacheManager.set _ _ _ _ _ _) as [[e|[]] c]; cbn;
      exists [EvValidate; EvTransform]; now rewrite <- !app_assoc.
  - exists [EvValidate; EvTransform]. now rewrite <- !app_assoc.
Qed.

Lemma handle_and_reraise_trace {A} (m : DM A) (st : collector) :
  trace (snd (handle_and_reraise m st)) = trace (snd (m st)).
Proof. unfold handle_and_reraise. now destruct (m st) as [[e|a] st']. Qed.

End DataCollectorTrace.

(** C10: with [use_cache] on, [collect_data] looks the key up in the cache
    manager; a truthy cached value is returned as is, with no provider call
    (the trace of provider calls is unchanged), while a falsy one ([None],
    [0], [""], [[]], [{}], [False]) is a miss: the call continues as the
    provider pipeline from the state the lookup left, and with a registered
    provider the fetch is made. *)
Theorem collect_data_falsy_cache_is_miss (strftime : Q -> string)
    (st : DataCollector.collector) (symbol p sd ed : string) (now : Q)
    (v : pyval) (c' : CacheManager.cache) :
  CacheManager.get (DataCollector.cache_key p symbol sd ed) now
    (DataCollector.cache_manager st) = (inr v, c') ->
  (truthy v = true ->
     DataCollector.collect_data strftime symbol p sd ed true now st =
       (inr v, DataCollector.set_cache st c') /\
     DataCollector.trace (DataCollector.set_cache st c') = DataCollector.trace st) /\
  (truthy v = false ->
     DataCollector.collect_data strftime symbol p sd ed true now st =
       DataCollector.handle_and_reraise
         (DataCollector.fetch_pipeline strftime symbol p sd ed true now)
         (DataCollector.set_cache st c') /\
     forall prov, DataCollector.providers st !! p = Some prov ->
       exists rest,
         DataCollector.trace
           (snd (DataCollector.collect_data strftime symbol p sd ed true now st)) =
         DataCollector.trace st ++ DataCollector.EvFetch symbol sd ed :: rest).
Proof.
  intros Hget.
  assert (E : DataCollector.collect_data strftime symbol p sd ed true now st =
    DataCollector.handle_and_reraise
      (fun st0 => if truthy v then (inr v, st0)
                  else DataCollector.fetch_pipeline strftime symbol p sd ed true now st0)
      (DataCollector.set_cache st c')).
  { unfold DataCollector.collect_data, DataCollector.handle_and_reraise,
      DataCollector.dbind, DataCollector.with_cache.
    rewrite Hget. cbn [andb]. destruct (truthy v); reflexivity. }
  split; intros Ht; rewrite E, Ht.
  - split; reflexivity.
  - split; [reflexivity|].
    intros prov Hp. rewrite DataCollectorTrace.handle_and_reraise_trace.
    exact (DataCollectorTrace.fetch_pipeline_logs_fetch strftime
             (DataCollector.set_cache st c') symbol p sd ed true now prov Hp).
Qed.

Definition demo_provider : DataCollector.provider :=
  DataCollector.mkProvider (fun _ _ _ => inr (PDict [("close", PFloat 1)]))
    (fun _ => true) (fun d => inr d).

Definition demo_collector : DataCollector.collector :=
  DataCollector.empty_collector (<["yahoo_finance" := demo_provider]> ∅).

Lemma collect_data_falsy_cache_is_miss_witness :
  let key := DataCollector.cache_key "yahoo_finance" "IBM" "2024-01-01" "2024-02-01" in
  let r := CacheManager.get key 0 (DataCollector.cache_manager demo_collector) in
  CacheManager.get key 0 (DataCollector.cache_manager demo_collector) = (inr PNone, snd r) /\
  truthy PNone = false /\
  exists rest,
    DataCollector.trace
      (snd (DataCollector.collect_data (fun _ => "2024-01-01 00:00:00"%string)
              "IBM" "yahoo_finance" "2024-01-01" "2024-02-01" true 0 demo_collector)) =
    DataCollector.trace demo_collector ++
      DataCollector.EvFetch "IBM" "2024-01-01" "2024-02-01" :: rest.
Proof.
  cbv zeta.
  assert (G : CacheManager.get
      (DataCollector.cache_key "yahoo_finance" "IBM" "2024-01-01" "2024-02-01") 0
      (DataCollector.cache_manager demo_collector) =
    (inr PNone, snd (CacheManager.get
      (DataCollector.cache_key "yahoo_finance" "IBM" "2024-01-01" "2024-02-01") 0
      (DataCollector.cache_manager demo_collector)))) by (vm_compute; reflexivity).
  split; [exact G|]. split; [reflexivity|].
  apply (proj2 (proj2 (collect_data_falsy_cache_is_miss _ _ _ _ _ _ _ _ _ G) eq_refl)
           demo_provider).
  vm_compute. reflexivity.
Defined.

(** ** Further properties of the modelled methods *)







Module DCM.
Import DataCollector.

Lemma fetch_pipeline_no_cache (strftime : Q -> string) (st : collector)
    (symbol p sd ed : string) (now : Q) :
  cache_manager (snd (fetch_pipeline strftime symbol p sd ed false now st)) = cache_manager st.
Proof.
  unfold fetch_pipeline, dbind, dread, dmodify, dlift, draise, dret.
  destruct (providers st !! p) as [prov|]; [|reflexivity].
  destruct (fetch_data prov symbol sd ed) as [e|data]; [reflexivity|].
  destruct (validate_response prov data); [|reflexivity].
  destruct (transform_data prov data); reflexivity.
Qed.

Lemma handle_and_reraise_cache {A} (m : DM A) (st : collector) :
  cache_manager (snd (handle_and_reraise m st)) = cache_manager (snd (m st)).
Proof. unfold handle_and_reraise. now destruct (m st) as [[e|a] st']. Qed.
End DCM.

(** With [use_cache=False], [collect_data] neither reads nor writes the
    cache: it is the provider pipeline under the [except: handle_error;
    raise] clause, and the cache manager is left unchanged. *)
Theorem collect_data_without_cache (strftime : Q -> string)
    (st : DataCollector.collector) (symbol p sd ed : string) (now : Q) :
  DataCollector.collect_data strftime symbol p sd ed false now st =
    DataCollector.handle_and_reraise
      (DataCollector.fetch_pipeline strftime symbol p sd ed false now) st /\
  DataCollector.cache_manager
    (snd (DataCollector.collect_data strftime symbol p sd ed false now st)) =
  DataCollector.cache_manager st.
Proof.
  assert (E : DataCollector.collect_data strftime symbol p sd ed false now st =
    DataCollector.handle_and_reraise
      (DataCollector.fetch_pipeline strftime symbol p sd ed false now) st) by reflexivity.
  split; [exact E|]. rewrite E, DCM.handle_and_reraise_cache.
  apply DCM.fetch_pipeline_no_cache.
Qed.

(** An unregistered provider name makes [collect_data] raise
    [DataCollectionError("Unknown provider: ...")] after reporting it to the
    error handler; with the cache on, this happens after a cache miss, whose
    statistics are kept. *)
Theorem collect_data_unknown_provider (strftime : Q -> string)
    (st : DataCollector.collector) (symbol p sd ed : string) (now : Q)
    (v : pyval) (c' : CacheManager.cache) :
  DataCollector.providers st !! p = None ->
  let e := DataCollectionError ("Unknown provider: " +s+ p) in
  DataCollector.collect_data strftime symbol p sd ed false now st =
    (inl e, DataCollector.log_error st e) /\
  (CacheManager.get (DataCollector.cache_key p symbol sd ed) now
     (DataCollector.cache_manager st) = (inr v, c') ->
   truthy v = false ->
   DataCollector.collect_data strftime symbol p sd ed true now st =
     (inl e, DataCollector.log_error (DataCollector.set_cache st c') e)).
Proof.
  intros Hp. cbv zeta. split.
  - unfold DataCollector.collect_data, DataCollector.fetch_pipeline,
      DataCollector.handle_and_reraise, DataCollector.dbind, DataCollector.dread,
      DataCollector.dret, DataCollector.draise.
    cbn [andb]. rewrite Hp. reflexivity.
  - intros Hget Hv.
    unfold DataCollector.collect_data, DataCollector.handle_and_reraise,
      DataCollector.dbind, DataCollector.with_cache.
    rewrite Hget, Hv. cbn [andb].
    unfold DataCollector.fetch_pipeline, DataCollector.dbind, DataCollector.dread,
      DataCollector.draise. cbn [DataCollector.providers DataCollector.set_cache].
    rewrite Hp. reflexivity.
Qed.

(** After a cache miss, a response the provider rejects makes
    [collect_data] raise [DataCollectionError("Invalid response from
    provider")] after one fetch and one validation, with nothing cached and
    the error reported once. *)
Theorem collect_data_invalid_response (strftime : Q -> string)
    (st : DataCollector.collector) (symbol p sd ed : string) (now : Q)
    (v : pyval) (c' : CacheManager.cache) (prov : DataCollector.provider) (data : pyval) :
  CacheManager.get (DataCollector.cache_key p symbol sd ed) now
    (DataCollector.cache_manager st) = (inr v, c') ->
  truthy v = false ->
  DataCollector.providers st !! p = Some prov ->
  DataCollector.fetch_data prov symbol sd ed = inr data ->
  DataCollector.validate_response prov data = false ->
  let e := DataCollectionError "Invalid response from provider" in
  let st' := snd (DataCollector.collect_data strftime symbol p sd ed true now st) in
  fst (DataCollector.collect_data strftime symbol p sd ed true now st) = inl e /\
  DataCollector.trace st' =
    DataCollector.trace st ++ [DataCollector.EvFetch symbol sd ed; DataCollector.EvValidate] /\
  DataCollector.cache_manager st' = c' /\
  DataCollector.error_log st' = DataCollector.error_log st ++ [e].
Proof.
  intros Hget Hv Hp Hf Hval. cbv zeta.
  unfold DataCollector.collect_data, DataCollector.handle_and_reraise,
    DataCollector.dbind, DataCollector.with_cache.
  rewrite Hget, Hv. cbn [andb].
  unfold DataCollector.fetch_pipeline, DataCollector.dbind, DataCollector.dread,
    DataCollector.draise, DataCollector.dmodify, DataCollector.dlift.
  cbn [DataCollector.providers DataCollector.set_cache]. rewrite Hp.
  cbn [DataCollector.log_event DataCollector.fetch_data]. rewrite Hf, Hval.
  cbn. rewrite <- app_assoc. repeat split; reflexivity.
Qed.



(** For a task key not yet registered, [start_real_time_collection] adds
    it to the active collections, and [stop_real_time_collection] on the
    same pair restores the previous set. *)
Theorem active_collections_start_stop (st : DataCollector.collector)
    (symbol p : string) (interval : Z) :
  DataCollector.collection_tasks st !! DataCollector.task_key p symbol = None ->
  let st1 := snd (DataCollector.start_real_time_collection symbol p interval st) in
  let st2 := snd (DataCollector.stop_real_time_collection symbol p st1) in
  fst (DataCollector.start_real_time_collection symbol p interval st) = inr tt /\
  DataCollectorMore.get_active_collections st1 =
    {[DataCollector.task_key p symbol]} ∪ DataCollectorMore.get_active_collections st /\
  fst (DataCollector.stop_real_time_collection symbol p st1) = inr tt /\
  DataCollectorMore.get_active_collections st2 =
    DataCollectorMore.get_active_collections st.
Proof.
  intros Hnone. cbv zeta.
  unfold DataCollector.start_real_time_collection, DataCollector.stop_real_time_collection,
    DataCollector.handle_and_reraise, DataCollector.dbind, DataCollector.dread,
    DataCollector.dmodify, DataCollectorMore.get_active_collections.
  rewrite Hnone. cbn [DataCollector.set_tasks DataCollector.collection_tasks fst snd].
  rewrite lookup_insert_eq. cbn [DataCollector.set_tasks DataCollector.collection_tasks fst snd].
  split; [reflexivity|]. split; [apply dom_insert_L|]. split; [reflexivity|].
  rewrite delete_insert_id by exact Hnone. reflexivity.
Qed.

Module EHF.
Import ErrorHandler.

Lemma total_bump (m : gmap string Z) (k : string) :
  map_fold (fun _ v acc => (v + acc)%Z) 0%Z (<[k := (default 0 (m !! k) + 1)%Z]> m) =
  (map_fold (fun _ v acc => (v + acc)%Z) 0%Z m + 1)%Z.
Proof.
  destruct (m !! k) as [v|] eqn:Hk; cbn [default].
  - rewrite <- insert_delete_eq.
    rewrite map_fold_insert_L; [| intros; cbv beta; lia | apply lookup_delete_eq].
    rewrite (map_fold_delete_L _ _ k v m); [unfold id; lia | intros; lia | exact Hk].
  - rewrite map_fold_insert_L; [cbv beta; lia | intros; cbv beta; lia | exact Hk].
Qed.
End EHF.

(** [handle_error] with no callback registered for the error's type (a
    callback receives the [error_info] dict and the handler, and may mutate
    either): the info holds the type name, the message and the category of
    the error's class; the count of that type goes up by one (from 0 when
    absent), the other counts stay, [total_errors] of [get_error_stats]
    goes up by one and the callbacks are kept. *)
Theorem handle_error_counts {E : Type} (type_name message : E -> string)
    (kind : E -> ErrorHandler.error_kind) (h : ErrorHandler.handler) (e : E)
    (Hcb : ErrorHandler.error_callbacks h !! type_name e = None) :
  let r := ErrorHandler.handle_error type_name message kind h e in
  ErrorHandler.error_type (fst r) = type_name e /\
  ErrorHandler.error_message (fst r) = message e /\
  ErrorHandler.category (fst r) = ErrorHandler.category_of (kind e) /\
  ErrorHandler.error_counts (snd r) !! type_name e =
    Some (default 0 (ErrorHandler.error_counts h !! type_name e) + 1)%Z /\
  (forall t, t <> type_name e ->
     ErrorHandler.error_counts (snd r) !! t = ErrorHandler.error_counts h !! t) /\
  ErrorHandler.total_errors (snd r) = (ErrorHandler.total_errors h + 1)%Z /\
  ErrorHandler.error_callbacks (snd r) = ErrorHandler.error_callbacks h.
Proof.
  cbv zeta. unfold ErrorHandler.handle_error, ErrorHandler.total_errors. cbn.
  split; [reflexivity|]. split; [reflexivity|]. split; [reflexivity|].
  split; [apply lookup_insert_eq|]. split.
  - intros t Ht. apply lookup_insert_ne. congruence.
  - split; [apply EHF.total_bump | reflexivity].
Qed.

(** [handle_batch_errors] with no callback registered for the errors'
    types: it returns one result per key, in the order of [errors.items()],
    and [total_errors] goes up by the number of errors. *)
Theorem handle_batch_errors_total {E : Type} (type_name message : E -> string)
    (kind : E -> ErrorHandler.error_kind) (h : ErrorHandler.handler)
    (errors : list (string * E))
    (Hcb : forall key err, In (key, err) errors ->
           ErrorHandler.error_callbacks h !! type_name err = None) :
  let r := ErrorHandler.handle_batch_errors type_name message kind h errors in
  map fst (fst r) = map fst errors /\
  ErrorHandler.total_errors (snd r) =
    (ErrorHandler.total_errors h + Z.of_nat (length errors))%Z.
Proof.
  cbv zeta. clear Hcb. revert h. induction errors as [|[key err] rest IH]; intros h.
  - cbn. split; [reflexivity|lia].
  - cbn [ErrorHandler.handle_batch_errors].
    destruct (ErrorHandler.handle_error type_name message kind h err) as [info h1] eqn:E1.
    destruct (ErrorHandler.handle_batch_errors type_name message kind h1 rest)
      as [results h2] eqn:E2.
    specialize (IH h1). rewrite E2 in IH. destruct IH as [IH1 IH2].
    cbn [fst snd map] in *. split; [now rewrite IH1|].
    rewrite IH2.
    assert (T : ErrorHandler.total_errors h1 = (ErrorHandler.total_errors h + 1)%Z).
    { pose proof (f_equal snd E1) as S1. cbn [snd] in S1. rewrite <- S1.
      unfold ErrorHandler.handle_error, ErrorHandler.total_errors. cbn.
      apply EHF.total_bump. }
    rewrite T. cbn [length]. lia.
Qed.

(** [clear_error_counts] then [handle_error] with no callback registered
    for the error's type: the cleared handler reports no error, and after
    the error its counts hold that type alone, once. *)
Theorem clear_then_handle_error {E : Type} (type_name message : E -> string)
    (kind : E -> ErrorHandler.error_kind) (h : ErrorHandler.handler) (e : E)
    (Hcb : ErrorHandler.error_callbacks h !! type_name e = None) :
  let h1 := ErrorHandler.clear_error_counts h in
  let h2 := snd (ErrorHandler.handle_error type_name message kind h1 e) in
  ErrorHandler.total_errors h1 = 0%Z /\
  ErrorHandler.error_counts h2 = {[type_name e := 1%Z]} /\
  ErrorHandler.total_errors h2 = 1%Z /\
  ErrorHandler.error_callbacks h2 = ErrorHandler.error_callbacks h.
Proof.
  cbv zeta. unfold ErrorHandler.handle_error, ErrorHandler.clear_error_counts,
    ErrorHandler.total_errors. cbn [ErrorHandler.error_counts ErrorHandler.error_callbacks snd].
  rewrite lookup_empty. cbn [default].
  split; [apply map_fold_empty|].
  split; [apply insert_empty|]. split; [|reflexivity].
  rewrite insert_empty, map_fold_singleton. lia.
Qed.

Lemma py_int_range (q : Q) (m : Z) :
  (0 <= q)%Q -> (q <= inject_Z m)%Q -> (0 <= py_int q <= m)%Z.
Proof.
  intros H0 Hm. rewrite py_int_nonneg by exact H0. split.
  - change 0%Z with (Qfloor 0). now apply Qfloor_resp_le.
  - rewrite <- (Qfloor_Z m). now apply Qfloor_resp_le.
Qed.

Lemma py_max_range (a m : Q) :
  (0 <= m)%Q -> (a <= m)%Q -> (0 <= py_max 0 a <= m)%Q.
Proof.
  intros Hm Ha. unfold py_max, Qlt_bool. destruct (Qle_bool a 0) eqn:E; cbn.
  - split; [apply Qle_refl | exact Hm].
  - split; [|exact Ha]. apply Qlt_le_weak, Qnot_le_lt. intros C.
    apply Qle_bool_iff in C. congruence.
Qed.

Module RLM.
Import RateLimiter.
Section Clock.
Variable clock : nat -> Q.

Lemma drop_older_suffix (h : Q) (dq : list Q) (c : Q) :
  In c (drop_older h dq) -> In c dq.
Proof.
  induction dq as [|x rest IH]; cbn; [tauto|].
  destruct (Qlt_bool x h); [intros Hc; right; now apply IH | tauto].
Qed.

(** What [_refill] keeps: it never raises, reads the clock forward, keeps
    only recorded calls and leaves the configuration alone. *)
Lemma refill_keeps (w : world) :
  let w1 := snd (_refill clock w) in
  fst (_refill clock w) = inr tt /\
  (tick w <= tick w1)%nat /\
  (forall c, In c (minute_calls (lim w1)) -> In c (minute_calls (lim w))) /\
  (forall c, In c (day_calls (lim w1)) -> In c (day_calls (lim w))) /\
  calls_per_day (lim w1) = calls_per_day (lim w).
Proof.
  destruct w as [[cpm cpd b mb db lmr ldr mc dc] t]. cbv zeta.
  cbv beta iota zeta delta [_refill _cleanup_calls bind ret get_lim put_lim
    time_time set_minute set_day set_calls lim tick calls_per_minute
    calls_per_day burst_size minute_bucket day_bucket last_minute_refill
    last_day_refill minute_calls day_calls fst snd day_cap].
  repeat match goal with
         | |- context [match ?o with Some _ => _ | None => _ end] => destruct o
         | |- context [if ?c then _ else _] => destruct c
         end;
    cbn; (split; [reflexivity|]); (split; [lia|]);
    (split; [intros c Hc; now apply drop_older_suffix in Hc|]);
    (split; [intros c Hc; try apply drop_older_suffix in Hc; exact Hc|reflexivity]).
Qed.



Definition calls_before (w : world) : Prop :=
  forall c, In c (minute_calls (lim w) ++ day_calls (lim w)) ->
  forall i, (tick w <= i)%nat -> (c <= clock i)%Q.

Lemma calls_before_refill (w : world) :
  calls_before w -> calls_before (snd (_refill clock w)).
Proof.
  intros H c Hc i Hi. destruct (refill_keeps w) as (_ & Ht & Hm & Hd & _).
  apply H; [|lia]. apply in_app_or in Hc. apply in_or_app.
  destruct Hc as [Hc|Hc]; [left; now apply Hm | right; now apply Hd].
Qed.

Definition retry_ok (e : exc) : Prop :=
  (exists r, e = RateLimitError "Rate limit exceeded" r /\ (0 <= r <= 60)%Z) \/
  (exists r, e = RateLimitError "Daily rate limit exceeded" r /\ (0 <= r <= 24 * 3600)%Z).

Lemma acquire_refusal (w : world) (e : exc) :
  calls_before w ->
  fst (acquire clock w) = inl e ->
  retry_ok e /\ calls_before (snd (acquire clock w)).
Proof.
  intros Hw He. pose proof (calls_before_refill w Hw) as Hw1.
  destruct (refill_keeps w) as (Hr & _).
  unfold acquire in *. unfold bind in *.
  destruct (_refill clock w) as [r1 w1]. cbn [fst snd] in Hr, Hw1. subst r1.
  cbv beta iota zeta delta [get_lim put_lim time_time ret raise set_minute
    set_day set_calls _get_minute_wait_time _get_day_wait_time bind] in *.
  destruct (minute_bucket (lim w1) <=? 0)%Z eqn:Hz.
  - destruct (minute_calls (lim w1)) as [|oldest rest] eqn:Em; cbn in He |- *;
      injection He as <-.
    + split; [left; exists 0%Z; split; [reflexivity|lia]|].
      destruct w1; exact Hw1.
    + split.
      * left. eexists. split; [reflexivity|].
        assert (Ho : (oldest <= clock (tick w1))%Q).
        { apply Hw1; [apply in_or_app; left; rewrite Em; now left | lia]. }
        destruct (py_max_range (60 - (clock (tick w1) - oldest)) 60) as [A B]; [clear; lra | clear -Ho; lra |].
        apply py_int_range; [exact A | exact B].
      * intros c Hc i Hi. destruct w1 as [l1 t1]. cbn in *. apply (Hw1 c Hc i); cbn; lia.
  - destruct (bucket_le_0 (day_bucket (lim w1))) eqn:Hb.
    + destruct (day_cap (lim w1)) eqn:Ec;
        [destruct (day_calls (lim w1)) as [|oldest rest] eqn:Ed|];
        cbn in He |- *; injection He as <-.
      * split; [right; exists 0%Z; split; [reflexivity|lia]|].
        destruct w1; exact Hw1.
      * split.
        -- right. eexists. split; [reflexivity|].
           assert (Ho : (oldest <= clock (tick w1))%Q).
           { apply Hw1; [apply in_or_app; right; rewrite Ed; now left | lia]. }
           destruct (py_max_range (24 * 3600 - (clock (tick w1) - oldest)) (24 * 3600))
             as [A B]; [clear; lra | clear -Ho; lra |].
           apply py_int_range; [exact A | exact B].
        -- intros c Hc i Hi. destruct w1 as [l1 t1]. cbn in *.
           apply (Hw1 c Hc i); cbn; lia.
      * split; [right; exists 0%Z; split; [reflexivity|lia]|].
        destruct w1; exact Hw1.
    + destruct (day_cap _), (day_bucket _); cbn in He; discriminate He.
Qed.

Definition bounds_ok (l : limiter) : Prop :=
  (0 <= minute_bucket l <= burst_size l)%Z /\
  match day_cap l with
  | None => day_bucket l = Inf
  | Some d => exists n, day_bucket l = Fin n /\ (0 <= n <= d)%Z
  end.

Ltac bounds_split_with tac :=
  repeat (match goal with
  | |- context [if (?x <? ?y)%Z then _ else _] =>
      let E := fresh "E" in destruct (x <? y)%Z eqn:E;
      [apply Z.ltb_lt in E | apply Z.ltb_ge in E]
  | |- context [if (?x <=? ?y)%Z then _ else _] =>
      let E := fresh "E" in destruct (x <=? y)%Z eqn:E;
      [apply Z.leb_le in E | apply Z.leb_gt in E]
  | |- context [if ?c then _ else _] =>
      lazymatch c with Z.eqb _ _ => fail | _ => destruct c end
  | |- context [match ?l with [] => _ | _ :: _ => _ end] => destruct l
  end; cbv beta iota zeta; tac; cbv beta iota).

Ltac bounds_split Ed0 := bounds_split_with ltac:(try rewrite Ed0).

Lemma refill_bounds (w : world) :
  bounds_ok (lim w) -> bounds_ok (lim (snd (_refill clock w))) /\
  day_cap (lim (snd (_refill clock w))) = day_cap (lim w) /\
  burst_size (lim (snd (_refill clock w))) = burst_size (lim w).
Proof.
  destruct w as [[cpm cpd b mb db lmr ldr mc dc] t].
  unfold bounds_ok. cbn [lim day_cap calls_per_day minute_bucket burst_size day_bucket].
  intros [Hm Hd].
  destruct cpd as [d|]; [destruct (d =? 0)%Z eqn:Ed0|];
    unfold day_cap in Hd |- *; cbn [calls_per_day] in Hd; try rewrite Ed0 in Hd;
    [subst db | destruct Hd as (n & -> & Hn) | subst db];
  cbv beta iota zeta delta [_refill _cleanup_calls bind ret raise get_lim put_lim time_time set_minute
    set_day set_calls lim tick calls_per_minute calls_per_day burst_size
    minute_bucket day_bucket last_minute_refill last_day_refill minute_calls
    day_calls fst snd day_cap]; try rewrite Ed0; cbv beta iota.
  all: bounds_split Ed0.
  all: try rewrite Ed0; cbn.
  all: (split; [split; [lia|]|split; reflexivity]);
    first [reflexivity | eexists; split; [reflexivity|lia]].
Qed.

Lemma acquire_bounds (w : world) :
  bounds_ok (lim w) -> bounds_ok (lim (snd (acquire clock w))).
Proof.
  intros Hb. destruct (refill_bounds w Hb) as (Hb1 & _).
  destruct (refill_keeps w) as (Hr & _).
  unfold acquire, bind at 1.
  destruct (_refill clock w) as [r1 w1]. cbn [fst snd] in Hr, Hb1. subst r1.
  clear Hb w.
  destruct w1 as [[cpm cpd b mb db lmr ldr mc dc] t].
  revert Hb1. unfold bounds_ok.
  cbn [lim day_cap calls_per_day minute_bucket burst_size day_bucket].
  intros [Hm Hd].
  destruct cpd as [d|]; [destruct (d =? 0)%Z eqn:Ed0|];
    unfold day_cap in Hd |- *; cbn [calls_per_day] in Hd; try rewrite Ed0 in Hd;
    [subst db | destruct Hd as (n & -> & Hn) | subst db];
  cbv beta iota zeta delta [_get_minute_wait_time
    _get_day_wait_time bind ret raise get_lim put_lim time_time set_minute
    set_day set_calls lim tick calls_per_minute calls_per_day burst_size
    minute_bucket day_bucket last_minute_refill last_day_refill minute_calls
    day_calls fst snd day_cap bucket_le_0]; try rewrite Ed0; cbv beta iota.
  all: bounds_split Ed0.
  all: try rewrite Ed0; cbn.
  all: (split; [lia|]); first [reflexivity | eexists; split; [reflexivity|lia]].
Qed.

Lemma no_day_reset (x L : Q) :
  (x < L + 24 * 3600)%Q -> Qle_bool 1 ((x - L) / (24 * 3600)) = false.
Proof.
  intros H. destruct (Qle_bool _ _) eqn:E; [|reflexivity].
  apply Qle_bool_iff in E. exfalso.
  assert (Hlt : ((x - L) / (24 * 3600) < 1)%Q).
  { apply Qlt_shift_div_r; [reflexivity | lra]. }
  lra.
Qed.

Lemma acquire_day_step (w : world) (d n : Z) :
  day_cap (lim w) = Some d -> day_bucket (lim w) = Fin n ->
  (forall i, (tick w <= i)%nat -> (clock i < last_day_refill (lim w) + 24 * 3600)%Q) ->
  let (r, w') := acquire clock w in
  day_cap (lim w') = Some d /\
  last_day_refill (lim w') = last_day_refill (lim w) /\
  (tick w <= tick w')%nat /\
  match r with
  | inr _ => (0 < n)%Z /\ day_bucket (lim w') = Fin (n - 1)
  | inl _ => day_bucket (lim w') = Fin n
  end.
Proof.
  destruct w as [[cpm cpd b mb db lmr ldr mc dc] t].
  cbn [lim tick day_cap calls_per_day day_bucket last_day_refill].
  intros Hc -> Hclk. unfold day_cap in Hc; cbn [calls_per_day] in Hc.
  destruct cpd as [d0|]; [|discriminate Hc].
  destruct (d0 =? 0)%Z eqn:Ed0; [discriminate Hc|]. injection Hc as <-.
  cbv beta iota zeta delta [acquire _refill _cleanup_calls _get_minute_wait_time
    _get_day_wait_time bind ret raise get_lim put_lim time_time set_minute
    set_day set_calls lim tick calls_per_minute calls_per_day burst_size
    minute_bucket day_bucket last_minute_refill last_day_refill minute_calls
    day_calls fst snd day_cap bucket_le_0]; try rewrite Ed0; cbv beta iota.
  pose proof (no_day_reset (clock t) ldr (Hclk t (le_n t))) as HQ.
  bounds_split_with ltac:(try rewrite Ed0; try rewrite HQ).
  all: cbn; repeat split; try reflexivity; lia.
Qed.


Lemma acquire_n_cons (k : nat) (w : world) :
  acquire_n clock (S k) w =
  (fst (acquire clock w) :: fst (acquire_n clock k (snd (acquire clock w))),
   snd (acquire_n clock k (snd (acquire clock w)))).
Proof.
  cbn [acquire_n]. destruct (acquire clock w) as [r w1]. cbn [fst snd].
  destruct (acquire_n clock k w1). reflexivity.
Qed.

Definition granted (rs : list (exc + unit)) : nat :=
  length (List.filter (fun r => match r with inr _ => true | inl _ => false end) rs).

Lemma granted_le_day_bucket (k : nat) (w : world) (d n : Z) :
  day_cap (lim w) = Some d -> day_bucket (lim w) = Fin n -> (0 <= n)%Z ->
  (forall i, (tick w <= i)%nat -> (clock i < last_day_refill (lim w) + 24 * 3600)%Q) ->
  (Z.of_nat (granted (fst (acquire_n clock k w))) <= n)%Z.
Proof.
  revert w n. induction k as [|k IH]; intros w n Hc Hb Hn Hclk; [cbn; lia|].
  rewrite acquire_n_cons. cbn [fst].
  pose proof (acquire_day_step w d n Hc Hb Hclk) as Hs.
  destruct (acquire clock w) as [r w'] eqn:Ea. cbn [fst snd].
  destruct Hs as (Hc' & Hl' & Ht' & Hr).
  assert (Hclk' : forall i, (tick w' <= i)%nat ->
            (clock i < last_day_refill (lim w') + 24 * 3600)%Q).
  { intros i Hi. rewrite Hl'. apply Hclk. lia. }
  destruct r as [e|u]; unfold granted in *; cbn [List.filter length].
  - exact (IH w' n Hc' Hr Hn Hclk').
  - destruct Hr as [Hpos Hr].
    pose proof (IH w' (n - 1)%Z Hc' Hr ltac:(lia) Hclk'). lia.
Qed.

Lemma acquire_calls_before (w : world) :
  (forall i j, (i <= j)%nat -> (clock i <= clock j)%Q) ->
  calls_before w -> calls_before (snd (acquire clock w)).
Proof.
  intros Hmono Hw. pose proof (calls_before_refill w Hw) as Hw1.
  destruct (refill_keeps w) as (Hr & _).
  unfold acquire, bind at 1.
  destruct (_refill clock w) as [r1 w1]. cbn [fst snd] in Hr, Hw1. subst r1.
  clear Hw w.
  destruct w1 as [[cpm cpd b mb db lmr ldr mc dc] t].
  destruct cpd as [d|]; [destruct (d =? 0)%Z eqn:Ed0|]; destruct db as [n|];
  cbv beta iota zeta delta [_get_minute_wait_time
    _get_day_wait_time bind ret raise get_lim put_lim time_time set_minute
    set_day set_calls lim tick calls_per_minute calls_per_day burst_size
    minute_bucket day_bucket last_minute_refill last_day_refill minute_calls
    day_calls fst snd day_cap bucket_le_0]; try rewrite Ed0; cbv beta iota.
  all: bounds_split_with ltac:(try rewrite Ed0).
  all: unfold calls_before in *; cbn [lim tick minute_calls day_calls] in *;
    intros c Hc i Hi;
    repeat match goal with
    | H : In _ (_ ++ _) |- _ => apply in_app_or in H; destruct H as [H|H]
    | H : In _ [_] |- _ => destruct H as [<-|[]]
    end;
    first [ apply Hmono; lia
          | apply (Hw1 c); [apply in_or_app; tauto | lia] ].
Qed.

End Clock.
End RLM.

Lemma init_calls_before (clock : nat -> Q) cpm cpd burst t :
  RLM.calls_before clock (RateLimiter.init clock cpm cpd burst t).
Proof. intros c Hc. destruct Hc. Qed.

Lemma acquire_n_calls_before (clock : nat -> Q) (k : nat) (w : RateLimiter.world) :
  (forall i j, (i <= j)%nat -> (clock i <= clock j)%Q) ->
  RLM.calls_before clock w ->
  RLM.calls_before clock (snd (RateLimiter.acquire_n clock k w)).
Proof.
  intros Hmono. revert w. induction k as [|k IH]; intros w Hw; [exact Hw|].
  rewrite RateLimiterFacts.acquire_n_snd. apply IH.
  now apply RLM.acquire_calls_before.
Qed.

(** From construction, with a non-negative minute rate and burst size and
    a non-negative daily cap, after any number of [acquire()] calls
    [get_remaining_calls()] reports a minute count between 0 and
    [burst_size], and a day count that is [float('inf')] without a daily
    cap and between 0 and [calls_per_day] with one. *)
Theorem rate_limiter_buckets_in_range (clock : nat -> Q) (cpm : Z) (cpd burst : option Z)
    (t k : nat) :
  (0 <= cpm)%Z ->
  (forall b, burst = Some b -> (0 <= b)%Z) ->
  (forall d, cpd = Some d -> (0 <= d)%Z) ->
  let l := RateLimiter.lim (snd (RateLimiter.acquire_n clock k
                                   (RateLimiter.init clock cpm cpd burst t))) in
  let (minute, day) := RateLimiterMore.get_remaining_calls l in
  (0 <= minute <= RateLimiter.burst_size l)%Z /\
  match RateLimiter.day_cap l with
  | None => day = RateLimiter.Inf
  | Some d => exists n, day = RateLimiter.Fin n /\ (0 <= n <= d)%Z
  end.
Proof.
  intros Hcpm Hb Hd. cbv zeta.
  assert (H0 : RLM.bounds_ok (RateLimiter.lim (RateLimiter.init clock cpm cpd burst t))).
  { unfold RLM.bounds_ok, RateLimiter.day_cap. cbn.
    split.
    - destruct burst as [b|]; [specialize (Hb b eq_refl); destruct (b =? 0)%Z|]; lia.
    - destruct cpd as [d|]; [specialize (Hd d eq_refl); destruct (d =? 0)%Z eqn:E|];
        cbn; try rewrite E; try reflexivity.
      eexists; split; [reflexivity|lia]. }
  assert (Hk : RLM.bounds_ok (RateLimiter.lim (snd (RateLimiter.acquire_n clock k
                 (RateLimiter.init clock cpm cpd burst t))))).
  { revert H0. generalize (RateLimiter.init clock cpm cpd burst t) as w.
    induction k as [|k IH]; intros w Hw; [exact Hw|].
    rewrite RateLimiterFacts.acquire_n_snd. apply IH.
    now apply RLM.acquire_bounds. }
  unfold RateLimiterMore.get_remaining_calls. destruct Hk as [Hm Hday].
  destruct (RateLimiter.day_cap _); cbv beta iota in *;
    (split; [exact Hm | first [reflexivity | exact Hday]]).
Qed.

(** From construction with a daily cap [d > 0], while every clock reading
    is less than a day after the constructor's second reading (so the day
    bucket never refills), at most [d] of any sequence of [acquire()] calls
    succeed. *)
Theorem rate_limiter_daily_cap (clock : nat -> Q) (cpm d : Z) (burst : option Z) (t k : nat) :
  (0 < d)%Z ->
  (forall i, (S (S t) <= i)%nat -> (clock i < clock (S t) + 24 * 3600)%Q) ->
  (Z.of_nat (RLM.granted (fst (RateLimiter.acquire_n clock k
                                (RateLimiter.init clock cpm (Some d) burst t)))) <= d)%Z.
Proof.
  intros Hd Hclk.
  apply (RLM.granted_le_day_bucket clock k _ d d); cbn.
  - unfold RateLimiter.day_cap. cbn. destruct (d =? 0)%Z eqn:E; [lia|reflexivity].
  - destruct (d =? 0)%Z eqn:E; [lia|reflexivity].
  - lia.
  - exact Hclk.
Qed.

(** With a non-decreasing clock, an [acquire()] refused after any number
    of calls from construction raises [RateLimitError] with message "Rate
    limit exceeded" and [0 <= retry_after <= 60], or "Daily rate limit
    exceeded" and [0 <= retry_after <= 86400]. *)
Theorem rate_limiter_retry_after_bounded (clock : nat -> Q) (cpm : Z) (cpd burst : option Z)
    (t k : nat) (e : exc) :
  (forall i j, (i <= j)%nat -> (clock i <= clock j)%Q) ->
  let w := snd (RateLimiter.acquire_n clock k (RateLimiter.init clock cpm cpd burst t)) in
  fst (RateLimiter.acquire clock w) = inl e ->
  (exists r, e = RateLimitError "Rate limit exceeded" r /\ (0 <= r <= 60)%Z) \/
  (exists r, e = RateLimitError "Daily rate limit exceeded" r /\ (0 <= r <= 24 * 3600)%Z).
Proof.
  intros Hmono. cbv zeta. intros He.
  refine (proj1 (RLM.acquire_refusal clock _ e _ He)).
  apply acquire_n_calls_before; [exact Hmono | apply init_calls_before].
Qed.

(** With a non-decreasing clock, after any number of calls from
    construction, [wait_if_needed()] is the first [acquire()] when that
    succeeds; it raises only when that [acquire()] and the one after the
    sleep are both refused, and then raises the second refusal, a
    [RateLimitError] with a bounded [retry_after]. *)
Theorem wait_if_needed_retries_once (clock : nat -> Q) (cpm : Z) (cpd burst : option Z)
    (t k : nat) :
  (forall i j, (i <= j)%nat -> (clock i <= clock j)%Q) ->
  let w := snd (RateLimiter.acquire_n clock k (RateLimiter.init clock cpm cpd burst t)) in
  (fst (RateLimiter.acquire clock w) = inr tt ->
     RateLimiterMore.wait_if_needed clock w = RateLimiter.acquire clock w) /\
  (forall e, fst (RateLimiterMore.wait_if_needed clock w) = inl e ->
     (exists e1, fst (RateLimiter.acquire clock w) = inl e1) /\
     fst (RateLimiter.acquire clock (snd (RateLimiter.acquire clock w))) = inl e /\
     ((exists r, e = RateLimitError "Rate limit exceeded" r /\ (0 <= r <= 60)%Z) \/
      (exists r, e = RateLimitError "Daily rate limit exceeded" r /\ (0 <= r <= 24 * 3600)%Z))).
Proof.
  intros Hmono. cbv zeta.
  pose proof (acquire_n_calls_before clock k _ Hmono (init_calls_before clock cpm cpd burst t))
    as Hw.
  generalize dependent (snd (RateLimiter.acquire_n clock k (RateLimiter.init clock cpm cpd burst t))).
  intros w Hw. unfold RateLimiterMore.wait_if_needed.
  pose proof (RLM.acquire_refusal clock w) as Href.
  destruct (RateLimiter.acquire clock w) as [[e1|[]] w1] eqn:Ea; cbn [fst snd] in *.
  - destruct (Href e1 Hw eq_refl) as [Hok Hw1].
    assert (Hk : exists m r, e1 = RateLimitError m r)
      by (destruct Hok as [(r & -> & _)|(r & -> & _)]; eauto).
    destruct Hk as (m & r & ->).
    split; [discriminate|]. intros e He.
    split; [eauto|]. split; [exact He|].
    pose proof (RLM.acquire_refusal clock w1 e Hw1 He) as [Hok2 _]. exact Hok2.
  - split; [reflexivity|]. intros e He; discriminate He.
Qed.

(** [get_intraday_data] and [get_technical_indicators] always raise the
    [AttributeError] of the missing [release()], whatever the request
    outcome, and leave the limiter as [acquire()] left it: a granted call
    spends its token although the method fails. *)
Theorem alpha_vantage_requests_raise_after_acquire (clock : nat -> Q)
    (request : exc + pyval) (w : RateLimiter.world) :
  AlphaVantageMore.get_intraday_data clock request w =
    (inl (AttributeError "'RateLimiter' object has no attribute 'release'"),
     snd (RateLimiter.acquire clock w)) /\
  AlphaVantageMore.get_technical_indicators clock request w =
    (inl (AttributeError "'RateLimiter' object has no attribute 'release'"),
     snd (RateLimiter.acquire clock w)).
Proof.
  unfold AlphaVantageMore.get_intraday_data, AlphaVantageMore.get_technical_indicators,
    AlphaVantageMore.limited_request, RateLimiter.try_finally.
  destruct (RateLimiter.acquire clock w) as [[e|u] w1]; split; reflexivity.
Qed.

(** ** Witnesses of the further properties *)

Definition demo_invalid_provider : DataCollector.provider :=
  DataCollector.mkProvider (fun _ _ _ => inr (PDict [("close", PFloat 1)]))
    (fun _ => false) (fun d => inr d).

Definition demo_invalid_collector : DataCollector.collector :=
  DataCollector.empty_collector (<["yahoo_finance" := demo_invalid_provider]> ∅).

(** A clock read once a second that stops at one hour. *)
Definition busy_clock (i : nat) : Q := inject_Z (Z.min (Z.of_nat i) 3600).

Lemma demo_clock_mono (i j : nat) : (i <= j)%nat -> (demo_clock i <= demo_clock j)%Q.
Proof.
  intros H. unfold demo_clock.
  destruct (Nat.leb_spec i 19), (Nat.leb_spec j 19); unfold Qle; cbn [Qnum Qden]; lia.
Qed.



Lemma collect_data_unknown_provider_witness :
  DataCollector.providers demo_collector !! "polygon" = None /\
  let e := DataCollectionError ("Unknown provider: " +s+ "polygon") in
  DataCollector.collect_data (fun _ => "2024-01-01 00:00:00"%string)
    "IBM" "polygon" "2024-01-01" "2024-02-01" false 0 demo_collector =
    (inl e, DataCollector.log_error demo_collector e).
Proof.
  split; [vm_compute; reflexivity|].
  pose proof (collect_data_unknown_provider (fun _ => "2024-01-01 00:00:00"%string)
    demo_collector "IBM" "polygon" "2024-01-01" "2024-02-01" 0 PNone
    CacheManager.default_cache ltac:(vm_compute; reflexivity)) as H.
  cbv zeta in H |- *. destruct H as [H _]. exact H.
Defined.

Lemma collect_data_invalid_response_witness :
  let key := DataCollector.cache_key "yahoo_finance" "IBM" "2024-01-01" "2024-02-01" in
  let c' := snd (CacheManager.get key 0 (DataCollector.cache_manager demo_invalid_collector)) in
  CacheManager.get key 0 (DataCollector.cache_manager demo_invalid_collector) = (inr PNone, c') /\
  DataCollector.providers demo_invalid_collector !! "yahoo_finance" = Some demo_invalid_provider /\
  fst (DataCollector.collect_data (fun _ => "2024-01-01 00:00:00"%string)
         "IBM" "yahoo_finance" "2024-01-01" "2024-02-01" true 0 demo_invalid_collector) =
    inl (DataCollectionError "Invalid response from provider").
Proof.
  cbv zeta. split; [vm_compute; reflexivity|]. split; [vm_compute; reflexivity|].
  pose proof (collect_data_invalid_response (fun _ => "2024-01-01 00:00:00"%string)
    demo_invalid_collector "IBM" "yahoo_finance" "2024-01-01" "2024-02-01" 0 PNone
    (snd (CacheManager.get
            (DataCollector.cache_key "yahoo_finance" "IBM" "2024-01-01" "2024-02-01") 0
            (DataCollector.cache_manager demo_invalid_collector)))
    demo_invalid_provider (PDict [("close", PFloat 1)])
    ltac:(vm_compute; reflexivity) eq_refl ltac:(vm_compute; reflexivity)
    eq_refl eq_refl) as H.
  cbv zeta in H. destruct H as [H _]. exact H.
Defined.


Lemma active_collections_start_stop_witness :
  DataCollector.collection_tasks (DataCollector.empty_collector ∅)
    !! DataCollector.task_key "yahoo_finance" "IBM" = None /\
  let st1 := snd (DataCollector.start_real_time_collection "IBM" "yahoo_finance" 60
                    (DataCollector.empty_collector ∅)) in
  DataCollectorMore.get_active_collections st1 =
    {[DataCollector.task_key "yahoo_finance" "IBM"]} ∪
    DataCollectorMore.get_active_collections (DataCollector.empty_collector ∅).
Proof.
  split; [reflexivity|].
  pose proof (active_collections_start_stop (DataCollector.empty_collector ∅)
                "IBM" "yahoo_finance" 60 eq_refl) as H.
  cbv zeta in H |- *. destruct H as (_ & H & _). exact H.
Defined.

Lemma rate_limiter_buckets_in_range_witness :
  (0 <= 5)%Z /\
  let l := RateLimiter.lim (snd (RateLimiter.acquire_n demo_clock 7
                                   (RateLimiter.init demo_clock 5 (Some 100%Z) None 0))) in
  let (minute, day) := RateLimiterMore.get_remaining_calls l in
  (0 <= minute <= RateLimiter.burst_size l)%Z.
Proof.
  split; [lia|].
  pose proof (rate_limiter_buckets_in_range demo_clock 5 (Some 100%Z) None 0 7
                ltac:(lia) ltac:(intros b Hb; discriminate Hb)
                ltac:(intros d Hd; injection Hd as <-; lia)) as H.
  cbv zeta in H |- *. destruct (RateLimiterMore.get_remaining_calls _).
  destruct H as [H _]. exact H.
Defined.

Lemma rate_limiter_daily_cap_witness :
  (0 < 3)%Z /\
  (forall i, (2 <= i)%nat -> (busy_clock i < busy_clock 1 + 24 * 3600)%Q) /\
  (Z.of_nat (RLM.granted (fst (RateLimiter.acquire_n busy_clock 10
                                (RateLimiter.init busy_clock 5 (Some 3%Z) None 0)))) <= 3)%Z.
Proof.
  assert (Hc : forall i, (2 <= i)%nat -> (busy_clock i < busy_clock 1 + 24 * 3600)%Q).
  { intros i _. unfold busy_clock, Qlt. cbn [Qnum Qden inject_Z Qplus Qmult].
    cbn. lia. }
  split; [lia|]. split; [exact Hc|].
  exact (rate_limiter_daily_cap busy_clock 5 3 None 0 10 ltac:(lia) Hc).
Defined.

Lemma rate_limiter_retry_after_bounded_witness :
  let w := snd (RateLimiter.acquire_n demo_clock 5 (RateLimiter.init demo_clock 5 None None 0)) in
  fst (RateLimiter.acquire demo_clock w) = inl (RateLimitError "Rate limit exceeded" 59) /\
  ((exists r, RateLimitError "Rate limit exceeded" 59 = RateLimitError "Rate limit exceeded" r
              /\ (0 <= r <= 60)%Z) \/
   (exists r, RateLimitError "Rate limit exceeded" 59 = RateLimitError "Daily rate limit exceeded" r
              /\ (0 <= r <= 24 * 3600)%Z)).
Proof.
  cbv zeta. split; [vm_compute; reflexivity|].
  exact (rate_limiter_retry_after_bounded demo_clock 5 None None 0 5 _ demo_clock_mono
           ltac:(vm_compute; reflexivity)).
Defined.

Lemma wait_if_needed_retries_once_witness :
  let w := snd (RateLimiter.acquire_n demo_clock 5 (RateLimiter.init demo_clock 5 None None 0)) in
  (forall i j, (i <= j)%nat -> (demo_clock i <= demo_clock j)%Q) /\
  fst (RateLimiter.acquire demo_clock w) = inl (RateLimitError "Rate limit exceeded" 59) /\
  fst (RateLimiterMore.wait_if_needed demo_clock w) = inr tt /\
  (forall e, fst (RateLimiterMore.wait_if_needed demo_clock w) = inl e ->
     fst (RateLimiter.acquire demo_clock (snd (RateLimiter.acquire demo_clock w))) = inl e).
Proof.
  cbv zeta. split; [exact demo_clock_mono|].
  split; [vm_compute; reflexivity|]. split; [vm_compute; reflexivity|].
  intros e He.
  pose proof (wait_if_needed_retries_once demo_clock 5 None None 0 5 demo_clock_mono) as H.
  cbv zeta in H. destruct H as [_ H]. destruct (H e He) as (_ & H2 & _). exact H2.
Defined.

Definition demo_handler : ErrorHandler.handler :=
  ErrorHandler.mkHandler {[ "APIError"%string := 3%Z ]} ∅.

Definition demo_kind (e : string * string) : ErrorHandler.error_kind :=
  if String.eqb (fst e) "APIError" then ErrorHandler.KAPIError else ErrorHandler.KOther.

Lemma handle_error_counts_witness :
  ErrorHandler.error_callbacks demo_handler !! "ValueError"%string = None /\
  ErrorHandler.total_errors
    (snd (ErrorHandler.handle_error fst snd demo_kind demo_handler
            ("ValueError", "bad value")%string)) = 4%Z.
Proof.
  split; [reflexivity|].
  pose proof (handle_error_counts fst snd demo_kind demo_handler
                ("ValueError", "bad value")%string eq_refl) as H.
  cbv zeta in H. destruct H as (_ & _ & _ & _ & _ & H & _). rewrite H. reflexivity.
Defined.

Lemma handle_batch_errors_total_witness :
  let errors := [("AAPL", ("APIError", "timeout")); ("MSFT", ("ValueError", "bad value"))]%string in
  (forall key err, In (key, err) errors ->
     ErrorHandler.error_callbacks demo_handler !! fst err = None) /\
  ErrorHandler.total_errors
    (snd (ErrorHandler.handle_batch_errors fst snd demo_kind demo_handler errors)) = 5%Z.
Proof.
  cbv zeta.
  assert (Hcb : forall key (err : string * string),
            In (key, err) [("AAPL", ("APIError", "timeout")); ("MSFT", ("ValueError", "bad value"))]%string ->
            ErrorHandler.error_callbacks demo_handler !! fst err = None)
    by (intros; apply lookup_empty).
  split; [exact Hcb|].
  pose proof (handle_batch_errors_total fst snd demo_kind demo_handler _ Hcb) as H.
  cbv zeta in H. destruct H as [_ H]. rewrite H. reflexivity.
Defined.

Lemma clear_then_handle_error_witness :
  ErrorHandler.error_callbacks demo_handler !! "ValueError"%string = None /\
  ErrorHandler.error_counts
    (snd (ErrorHandler.handle_error fst snd demo_kind
            (ErrorHandler.clear_error_counts demo_handler) ("ValueError", "bad value")%string)) =
    {[ "ValueError"%string := 1%Z ]}.
Proof.
  split; [reflexivity|].
  pose proof (clear_then_handle_error fst snd demo_kind demo_handler
                ("ValueError", "bad value")%string eq_refl) as H.
  cbv zeta in H. destruct H as (_ & H & _). exact H.
Defined.
